(** * WhispurrNet: a shallow embedding of the overlay core

    The development follows the TypeScript sources:
    - [Entropy]     : whispurrnet/utils/entropy.ts (node ids, resonance keys, whisper tags)
    - [Protocol]    : whispurrnet/Protocol.ts (records, construction, validation, wire form)
    - [Node]        : whispurrnet/Node.ts (peer table, encryption envelope, send path)
    - [Whispurr]    : whispurrnet/Whispurr.ts (dedup history, gossip, resonance, extensions)
    - [PeerManager] : src/peer/PeerManager.ts (peer table with a connection cap)

    Conventions.  JavaScript strings are [string]; integral numbers
    (millisecond clocks, hop counts, table sizes) are [Z]; the wall clock
    [Date.now()] and every random draw are explicit arguments.  A JavaScript
    [Map] whose iteration order is observable is an insertion-ordered
    association list ([OMap]); a [Map] used only through has/get/set/delete is
    a [gmap]. *)

From Stdlib Require Import ZArith QArith List String Ascii Bool Lia.
From Stdlib.Strings Require Import Byte.
From Stdlib Require DecimalString.
From stdpp Require Import gmap strings.
Import ListNotations.

Local Open Scope string_scope.
Local Open Scope list_scope.
Local Open Scope Z_scope.
Set Warnings "-register-all".

(** ** Small utilities shared by all modules *)

(** Result of a call that may [throw]. *)
Inductive Except (A : Type) : Type :=
| Return (a : A)
| Throw (msg : string).
Arguments Return {A} a.
Arguments Throw {A} msg.

Definition byteToZ (b : byte) : Z := Z.of_N (Byte.to_N b).

(** Insertion-ordered maps with string keys: the observable behaviour of a
    JavaScript [Map<string, V>]. *)
Module OMap.
Section Ops.
Context {V : Type}.

Fixpoint get (k : string) (m : list (string * V)) : option V :=
  match m with
  | [] => None
  | (k', v) :: m' => if String.eqb k k' then Some v else get k m'
  end.

Definition has (k : string) (m : list (string * V)) : bool :=
  match get k m with Some _ => true | None => false end.

(** [set] keeps the position of a key that is already there and appends a
    new key at the end. *)
Fixpoint set (k : string) (v : V) (m : list (string * V)) : list (string * V) :=
  match m with
  | [] => [(k, v)]
  | (k', v') :: m' =>
      if String.eqb k k' then (k, v) :: m' else (k', v') :: set k v m'
  end.

Definition delete (k : string) (m : list (string * V)) : list (string * V) :=
  List.filter (fun kv => negb (String.eqb k (fst kv))) m.

Definition values (m : list (string * V)) : list V := List.map snd m.

Definition size (m : list (string * V)) : Z := Z.of_nat (List.length m).
End Ops.
End OMap.

(** ** JavaScript values and JSON (the dynamically typed side of the code) *)
Module JS.

(** A JavaScript value, as far as messages need them.  Numbers are the finite
    ones ([Q]); [Bytes] is a [Uint8Array]; [Obj] lists own properties in
    creation order, each key once. *)
Inductive value : Type :=
| Undefined
| Null
| Bool (b : bool)
| Num (q : Q)
| Str (s : string)
| Arr (elems : list value)
| Obj (props : list (string * value))
| Bytes (bs : list byte).

(** The abstract syntax of a JSON text: what [JSON.stringify] writes and
    [JSON.parse] reads. *)
Inductive JSON : Type :=
| JNull
| JBool (b : bool)
| JNum (q : Q)
| JStr (s : string)
| JArr (elems : list JSON)
| JObj (members : list (string * JSON)).

Definition isZero (q : Q) : bool := Qeq_bool q 0.

(** ToBoolean: what [!v], [v || d] and [if (v)] look at. *)
Definition truthy (v : value) : bool :=
match v with
| Undefined | Null => false
| Bool b => b
| Num q => negb (isZero q)
| Str s => negb (String.eqb s EmptyString)
| Arr _ | Obj _ | Bytes _ => true
end.

(** [typeof v === 'number'] *)
Definition isNumber (v : value) : bool :=
match v with Num _ => true | _ => false end.

(** [Array.isArray(v)] *)
Definition isArray (v : value) : bool :=
match v with Arr _ => true | _ => false end.

(** Property read [v.k] on a value that is neither [null] nor [undefined]. *)
Definition getProp (v : value) (k : string) : value :=
match v with
| Obj props => match OMap.get k props with Some x => x | None => Undefined end
| _ => Undefined
end.

(** Property write [o.k = x] and the literal [{...o, k: x}]. *)
Definition setProp (v : value) (k : string) (x : value) : value :=
match v with
| Obj props => Obj (OMap.set k x props)
| _ => v
end.

Definition ofZ (z : Z) : value := Num (inject_Z z).
Definition ofByte (b : byte) : value := ofZ (byteToZ b).

(** Truncation toward zero of a finite number. *)
Definition truncate (q : Q) : Z := Z.quot (Qnum q) (Zpos (Qden q)).

(** ToUint8 of a finite number: truncate, then reduce modulo 256. *)
Definition toUint8 (v : value) : byte :=
match v with
| Num q =>
    match Byte.of_N (Z.to_N (truncate q mod 256)) with
    | Some b => b
    | None => x00
    end
| _ => x00
end.

(** [new Uint8Array(arr)] *)
Definition newUint8Array (l : list value) : value := Bytes (List.map toUint8 l).

Definition indexKey (i : nat) : string :=
DecimalString.NilZero.string_of_uint (Nat.to_uint i).

Fixpoint indexed (i : nat) (bs : list byte) : list (string * JSON) :=
match bs with
| [] => []
| b :: bs' => (indexKey i, JNum (inject_Z (byteToZ b))) :: indexed (S i) bs'
end.

(** A member [k: j] is written when the value has a JSON form. *)
Definition member (k : string) (o : option JSON) (rest : list (string * JSON))
  : list (string * JSON) :=
match o with
| Some j => (k, j) :: rest
| None => rest
end.

(** An array element without a JSON form is written as [null]. *)
Definition element (o : option JSON) : JSON :=
match o with
| Some j => j
| None => JNull
end.

(** [JSON.stringify(v)]; [None] is the result [undefined].  A property whose
    value is [undefined] is left out, an [undefined] array element is written
    as [null], a typed array is written as an object keyed by index. *)
Fixpoint stringify (v : value) : option JSON :=
match v with
| Undefined => None
| Null => Some JNull
| Bool b => Some (JBool b)
| Num q => Some (JNum q)
| Str s => Some (JStr s)
| Arr l => Some (JArr (List.map (fun x => element (stringify x)) l))
| Obj props =>
    Some (JObj (List.fold_right
                  (fun kx rest => member (fst kx) (stringify (snd kx)) rest)
                  [] props))
| Bytes bs => Some (JObj (indexed 0 bs))
end.

(** [JSON.parse(text)]: a member that repeats a key overwrites the earlier
    one. *)
Fixpoint parse (j : JSON) : value :=
match j with
| JNull => Null
| JBool b => Bool b
| JNum q => Num q
| JStr s => Str s
| JArr l => Arr (List.map parse l)
| JObj members =>
    Obj (List.fold_left
           (fun acc kj => OMap.set (fst kj) (parse (snd kj)) acc) members [])
end.

Fixpoint keysDistinct {A : Type} (l : list (string * A)) : bool :=
match l with
| [] => true
| (k, _) :: l' => negb (OMap.has k l') && keysDistinct l'
end.

(** Values that a JSON text carries unchanged: no [undefined], no typed
    array, every object with each key once. *)
Fixpoint jsonSafe (v : value) : bool :=
match v with
| Undefined | Bytes _ => false
| Null | Bool _ | Num _ | Str _ => true
| Arr l => List.forallb jsonSafe l
| Obj props =>
    keysDistinct props && List.forallb (fun kx => jsonSafe (snd kx)) props
end.

(** [JSON.parse(JSON.stringify(x))] gives [x] back when [x] is safe. *)
Definition carried (x : value) : Prop :=
jsonSafe x = true ->
stringify x <> None /\ parse (element (stringify x)) = x.

End JS.

(** ** Primitives of the platform

    What the code calls and does not define: the digest, the key agreement
    and the cipher of Web Crypto, the random source, the text of a JSON
    value, and the conversions the engine applies to operands that are not
    numbers. *)
Class Platform : Type := {
  (** [crypto.subtle.digest('SHA-256', bytes)] *)
  sha256 : list byte -> list byte;
  (** the characters [JSON.stringify] writes for a JSON value *)
  jsonText : JS.JSON -> string;
  (** ToNumber on a value that is not a number; [None] is [NaN] *)
  toNumber : JS.value -> option Q;
  (** the text a template literal inserts for a value *)
  toText : JS.value -> string;
  (** [deriveBits] for ECDH on P-256 from an imported private key and an
      imported raw public key, 256 bits; [None] when an import or the
      derivation throws *)
  ecdhDeriveBits : list byte -> list byte -> option (list byte);
  (** AES-GCM with a raw key and an initialisation vector; [None] when it
      throws *)
  aesGcmEncrypt : list byte -> list byte -> list byte -> option (list byte);
  (** the bytes behind the [n]-th call of [crypto.getRandomValues] *)
  entropySource : nat -> list byte;
  (** the numbers behind the [n]-th run of [Math.random]-driven sorting *)
  randomChoices : nat -> list nat
}.

(** A stand-in platform for evaluating the code on examples.  Its digest
    and ciphers are placeholders with the right sizes, not the real
    primitives; examples use it only where the outcome does not depend on
    them. *)
Definition samplePlatform : Platform :=
{| sha256 := fun bytes => List.firstn 32 (bytes ++ List.repeat x00 32);
   jsonText := fun _ => EmptyString;
   toNumber := fun _ => None;
   toText := fun _ => EmptyString;
   ecdhDeriveBits :=
     fun privateKey publicKey =>
       Some (List.firstn 32 (privateKey ++ publicKey ++ List.repeat x00 32));
   aesGcmEncrypt := fun _ _ plaintext => Some (plaintext ++ List.repeat x00 16);
   entropySource := fun _ => [];
   randomChoices := fun _ => [] |}.

(** ** Entropy and identity (whispurrnet/utils/entropy.ts) *)
Module Entropy.

(** One hexadecimal digit, lowercase, as [Number.prototype.toString(16)]
    prints it. *)
Definition hexDigit (d : Z) : ascii :=
  if d <? 10 then ascii_of_N (Z.to_N (48 + d)) else ascii_of_N (Z.to_N (87 + d)).

Fixpoint hexDigits (fuel : nat) (n : Z) (acc : string) : string :=
  match fuel with
  | O => acc
  | S fuel' =>
      let acc' := String (hexDigit (n mod 16)) acc in
      if n / 16 =? 0 then acc' else hexDigits fuel' (n / 16) acc'
  end.

(** [n.toString(16)] for an integral number [n]. *)
Definition toString16 (n : Z) : string :=
  if n <? 0
  then String "-" (hexDigits (S (Z.to_nat (Z.log2 (- n)))) (- n) EmptyString)
  else hexDigits (S (Z.to_nat (Z.log2 n))) n EmptyString.

Fixpoint repeatChar (n : nat) (c : ascii) : string :=
  match n with O => EmptyString | S n' => String c (repeatChar n' c) end.

(** [s.padStart(width, c)] with a one-character filler. *)
Definition padStart (s : string) (width : nat) (c : ascii) : string :=
  String.append (repeatChar (width - String.length s) c) s.

(** [Array.from(bytes).map(b => b.toString(16).padStart(2, '0')).join('')] *)
Definition bytesToHex (bytes : list byte) : string :=
  String.concat EmptyString
    (List.map (fun b => padStart (toString16 (byteToZ b)) 2 "0"%char) bytes).

(** [generateEphemeralNodeId]: the 16 bytes drawn by [generateSecureBytes(16)]
    and the clock read by [Date.now()] are the arguments. *)
Definition generateEphemeralNodeId (entropy : list byte) (timestamp : Z) : string :=
  String.append (bytesToHex entropy) (String ":" (toString16 timestamp)).

(** [s.split(sep)] for a one-character separator. *)
Fixpoint split (sep : ascii) (s : string) : list string :=
  match s with
  | EmptyString => [EmptyString]
  | String c s' =>
      if Ascii.eqb c sep then EmptyString :: split sep s'
      else match split sep s' with
           | h :: t => String c h :: t
           | [] => [String c EmptyString]
           end
  end.

(** [parts.join(sep)] for a one-character separator. *)
Fixpoint join (sep : ascii) (parts : list string) : string :=
match parts with
| [] => EmptyString
| [x] => x
| x :: rest => String.append x (String sep (join sep rest))
end.

(** The character class [[0-9a-f]]. *)
Definition isLowerHex (c : ascii) : bool :=
  let n := N_of_ascii c in
  ((48 <=? n) && (n <=? 57) || (97 <=? n) && (n <=? 102))%N.

Fixpoint allChars (p : ascii -> bool) (s : string) : bool :=
  match s with
  | EmptyString => true
  | String c s' => p c && allChars p s'
  end.

(** [/^[0-9a-f]{32}$/.test(s)] *)
Definition testHex32 (s : string) : bool :=
  Nat.eqb (String.length s) 32 && allChars isLowerHex s.

(** [/^[0-9a-f]+$/.test(s)] *)
Definition testHexPlus (s : string) : bool :=
  match s with
  | EmptyString => false
  | String _ _ => allChars isLowerHex s
  end.

Definition validateNodeId (nodeId : string) : bool :=
  match split ":" nodeId with
  | [entropy; timestamp] =>
      if negb (testHex32 entropy) then false
      else if negb (testHexPlus timestamp) then false
      else true
  | _ => false
  end.

(** Value of a digit in radix 16, either case, as [parseInt] reads it. *)
Definition hexVal (c : ascii) : option Z :=
  let n := Z.of_N (N_of_ascii c) in
  if (48 <=? n) && (n <=? 57) then Some (n - 48)
  else if (97 <=? n) && (n <=? 102) then Some (n - 87)
  else if (65 <=? n) && (n <=? 70) then Some (n - 55)
  else None.

Fixpoint parseHexPrefix (s : string) (acc : option Z) : option Z :=
  match s with
  | EmptyString => acc
  | String c s' =>
      match hexVal c with
      | Some d =>
          parseHexPrefix s'
            (Some (16 * (match acc with Some a => a | None => 0 end) + d))
      | None => acc
      end
  end.

(** [parseInt(s, 16)] on a string that starts with its digits: the longest
    prefix of hexadecimal digits is read; [None] is [NaN] (no digit).
    Sign, leading blanks and a [0x] prefix cannot occur in the strings
    [extractTimestamp] passes on and are not modelled. *)
Definition parseInt16 (s : string) : option Z := parseHexPrefix s None.

Definition extractTimestamp (nodeId : string) : Except (option Z) :=
  if negb (validateNodeId nodeId) then Throw "Invalid node ID format"
  else Return (parseInt16 (List.nth 1 (split ":" nodeId) EmptyString)).

(** [getNodeAge] *)
Definition getNodeAge (now : Z) (nodeId : string) : Except (option Z) :=
  match extractTimestamp nodeId with
  | Return ts => Return (option_map (fun t => now - t) ts)
  | Throw msg => Throw msg
  end.

(** The pattern of the specification, [^[0-9a-f]{32}:[0-9a-f]+$], with its
    declarative meaning. *)
Inductive regex : Type :=
| Class (p : ascii -> bool)
| Lit (c : ascii)
| Seq (r1 r2 : regex)
| Times (n : nat) (r : regex)
| Plus (r : regex).

Inductive matches : regex -> string -> Prop :=
| MClass p c : p c = true -> matches (Class p) (String c EmptyString)
| MLit c : matches (Lit c) (String c EmptyString)
| MSeq r1 r2 s1 s2 :
    matches r1 s1 -> matches r2 s2 -> matches (Seq r1 r2) (String.append s1 s2)
| MTimesO r : matches (Times O r) EmptyString
| MTimesS n r s1 s2 :
    matches r s1 -> matches (Times n r) s2 ->
    matches (Times (S n) r) (String.append s1 s2)
| MPlus1 r s : matches r s -> matches (Plus r) s
| MPlusS r s1 s2 :
    matches r s1 -> matches (Plus r) s2 -> matches (Plus r) (String.append s1 s2).

Definition nodeIdPattern : regex :=
Seq (Times 32 (Class isLowerHex)) (Seq (Lit ":") (Plus (Class isLowerHex))).

Section Digest.
Context {platform : Platform}.

(** [new TextEncoder().encode(s)]: strings are kept as their UTF-8 bytes. *)
Definition encode (s : string) : list byte := list_byte_of_string s.

Definition deriveResonanceKey (intent : string) : list byte :=
sha256 (encode intent).

(** [generateWhisperTag(topic, metadata?)] *)
Definition generateWhisperTag (topic : string) (metadata : option JS.value) : string :=
let topicBytes := encode topic in
let dataToHash :=
  match metadata with
  | Some m =>
      if JS.truthy m
      then match JS.stringify m with
           | Some j => topicBytes ++ encode (jsonText j)
           | None => topicBytes
           end
      else topicBytes
  | None => topicBytes
  end in
bytesToHex (List.firstn 8 (sha256 dataToHash)).
End Digest.

End Entropy.


(** ** Protocol (whispurrnet/Protocol.ts) *)
Module Protocol.
Import JS.

Definition PROTOCOL_VERSION : string := "1.0.0".

Inductive MessageType : Type :=
| WHISPER | BROADCAST | RESONANCE | PING | PONG
| FILE_SYNC | MINING_SIGNAL | DREAMSPACE
| HELLO | GOODBYE | ERROR.

(** The string value of each member of the enum. *)
Definition typeString (t : MessageType) : string :=
match t with
| WHISPER => "whisper"
| BROADCAST => "broadcast"
| RESONANCE => "resonance"
| PING => "ping"
| PONG => "pong"
| FILE_SYNC => "file_sync"
| MINING_SIGNAL => "mining_signal"
| DREAMSPACE => "dreamspace"
| HELLO => "hello"
| GOODBYE => "goodbye"
| ERROR => "error"
end.

(** [Object.values(MessageType)], in declaration order. *)
Definition messageTypeValues : list MessageType :=
[WHISPER; BROADCAST; RESONANCE; PING; PONG;
 FILE_SYNC; MINING_SIGNAL; DREAMSPACE; HELLO; GOODBYE; ERROR].

(** [a === b] on members of the enum. *)
Definition sameType (a b : MessageType) : bool :=
String.eqb (typeString a) (typeString b).

(** The fields a kind adds to the base message.  A field written
    [options.x!] in [createMessage] can be [undefined], hence the options. *)
Inductive KindFields : Type :=
| NoFields
| WhisperFields (targetId : option string)
| BroadcastFields (maxHops currentHops : Z) (seenBy : list string)
| ResonanceFields (intent : string) (strength : Q)
| FileSyncFields (fileId : option string) (chunkIndex totalChunks : Z) (metadata : value)
| MiningSignalFields (signalType : option string) (signalData : value)
| DreamspaceFields (burstId : option string) (burstData : value).

(** [BaseMessage] and its extensions, as one record. *)
Record Message : Type := {
  type : MessageType;
  senderId : string;
  resonanceKey : list byte;
  whisperTag : string;
  payload : string;
  timestamp : Z;
  version : string;
  ttl : Z;
  nonce : string;
  fields : KindFields
}.

Definition withPayload (m : Message) (p : string) : Message :=
{| type := type m; senderId := senderId m; resonanceKey := resonanceKey m;
   whisperTag := whisperTag m; payload := p; timestamp := timestamp m;
   version := version m; ttl := ttl m; nonce := nonce m; fields := fields m |}.

Definition withFields (m : Message) (f : KindFields) : Message :=
{| type := type m; senderId := senderId m; resonanceKey := resonanceKey m;
   whisperTag := whisperTag m; payload := payload m; timestamp := timestamp m;
   version := version m; ttl := ttl m; nonce := nonce m; fields := f |}.

Definition ofOptString (o : option string) : value :=
match o with Some s => Str s | None => Undefined end.

Definition kindProps (f : KindFields) : list (string * value) :=
match f with
| NoFields => []
| WhisperFields targetId => [("targetId", ofOptString targetId)]
| BroadcastFields maxHops currentHops seenBy =>
    [("maxHops", ofZ maxHops); ("currentHops", ofZ currentHops);
     ("seenBy", Arr (List.map Str seenBy))]
| ResonanceFields intent strength =>
    [("intent", Str intent); ("strength", Num strength)]
| FileSyncFields fileId chunkIndex totalChunks metadata =>
    [("fileId", ofOptString fileId); ("chunkIndex", ofZ chunkIndex);
     ("totalChunks", ofZ totalChunks); ("metadata", metadata)]
| MiningSignalFields signalType signalData =>
    [("signalType", ofOptString signalType); ("signalData", signalData)]
| DreamspaceFields burstId burstData =>
    [("burstId", ofOptString burstId); ("burstData", burstData)]
end.

(** The object behind a typed message: the properties in the order the
    literals of [createMessage] list them. *)
Definition toJS (m : Message) : value :=
Obj ([("type", Str (typeString (type m)));
      ("senderId", Str (senderId m));
      ("resonanceKey", Bytes (resonanceKey m));
      ("whisperTag", Str (whisperTag m));
      ("payload", Str (payload m));
      ("timestamp", ofZ (timestamp m));
      ("version", Str (version m));
      ("ttl", ofZ (ttl m));
      ("nonce", Str (nonce m))] ++ kindProps (fields m)).

Record ValidationResult : Type := {
  isValid : bool;
  errors : list string;
  warnings : list string
}.

(** [if (cond) list.push(msg)] *)
Definition pushIf (cond : bool) (msg : string) : list string :=
if cond then [msg] else [].

Definition Qltb (a b : Q) : bool := negb (Qle_bool b a).

Section WithPlatform.
Context {platform : Platform}.

(** The number an arithmetic operator or a comparison sees. *)
Definition asNumber (v : value) : option Q :=
match v with Num q => Some q | _ => toNumber v end.

(** [v < 0] for [v] with [typeof v === 'number'] *)
Definition negative (v : value) : bool :=
match v with Num q => Qltb q 0 | _ => false end.

(** [v > 1] for [v] with [typeof v === 'number'] *)
Definition aboveOne (v : value) : bool :=
match v with Num q => Qltb 1 q | _ => false end.

(** [Date.now() - message.timestamp > message.ttl]; a [NaN] on either side
    makes the comparison false. *)
Definition olderThanTtl (now : Z) (timestamp ttl : value) : bool :=
match asNumber timestamp, asNumber ttl with
| Some t, Some l => Qltb l (inject_Z now - t)
| _, _ => false
end.

(** [Object.values(MessageType).includes(v)] *)
Definition isMessageType (v : value) : bool :=
match v with
| Str s => List.existsb (fun t => String.eqb (typeString t) s) messageTypeValues
| _ => false
end.

(** [v === t] for a member [t] of the enum *)
Definition isType (v : value) (t : MessageType) : bool :=
match v with Str s => String.eqb s (typeString t) | _ => false end.

Definition validateMessage (now : Z) (message : value) : Except ValidationResult :=
match message with
| Undefined | Null => Throw "TypeError: cannot read properties"
| _ =>
  let get := getProp message in
  let errors :=
    (* Check required fields *)
    pushIf (negb (truthy (get "type"))) "Missing message type"
    ++ pushIf (negb (truthy (get "senderId"))) "Missing sender ID"
    ++ pushIf (negb (truthy (get "resonanceKey"))) "Missing resonance key"
    ++ pushIf (negb (truthy (get "whisperTag"))) "Missing whisper tag"
    ++ pushIf (negb (truthy (get "payload"))) "Missing payload"
    ++ pushIf (negb (truthy (get "timestamp"))) "Missing timestamp"
    ++ pushIf (negb (truthy (get "version"))) "Missing version"
    ++ pushIf (negb (truthy (get "ttl"))) "Missing TTL"
    ++ pushIf (negb (truthy (get "nonce"))) "Missing nonce"
    (* Validate message type *)
    ++ pushIf (truthy (get "type") && negb (isMessageType (get "type")))
         (String.append "Invalid message type: " (toText (get "type")))
    (* Validate timestamp *)
    ++ pushIf (truthy (get "timestamp") && negb (isNumber (get "timestamp")))
         "Timestamp must be a number"
    (* Validate TTL *)
    ++ pushIf (truthy (get "ttl")
               && (negb (isNumber (get "ttl")) || negative (get "ttl")))
         "TTL must be a positive number"
    (* Check message age *)
    ++ pushIf (truthy (get "timestamp") && truthy (get "ttl")
               && olderThanTtl now (get "timestamp") (get "ttl"))
         "Message has expired"
    (* Type-specific validation *)
    ++ pushIf (isType (get "type") WHISPER && negb (truthy (get "targetId")))
         "Whisper message missing target ID"
    ++ (if isType (get "type") BROADCAST
        then pushIf (negb (isNumber (get "maxHops")) || negative (get "maxHops"))
               "Broadcast message must have valid maxHops"
             ++ pushIf (negb (isNumber (get "currentHops"))
                        || negative (get "currentHops"))
                  "Broadcast message must have valid currentHops"
             ++ pushIf (negb (isArray (get "seenBy")))
                  "Broadcast message must have seenBy array"
        else [])
    ++ (if isType (get "type") RESONANCE
        then pushIf (negb (truthy (get "intent")))
               "Resonance message missing intent"
             ++ pushIf (negb (isNumber (get "strength"))
                        || negative (get "strength") || aboveOne (get "strength"))
                  "Resonance strength must be between 0 and 1"
        else []) in
  let warnings :=
    (* Validate protocol version *)
    pushIf (truthy (get "version")
            && negb (match get "version" with
                     | Str s => String.eqb s PROTOCOL_VERSION
                     | _ => false
                     end))
      (String.append "Protocol version mismatch: "
         (String.append (toText (get "version"))
            (String.append " vs " PROTOCOL_VERSION))) in
  Return {| isValid := Nat.eqb (List.length errors) 0;
            errors := errors;
            warnings := warnings |}
end.

(** The [options] argument of [createMessage]; an absent property is [None]. *)
Record MessageOptions : Type := {
  opt_intent : option string;
  opt_whisperTag : option string;
  opt_ttl : option Z;
  opt_targetId : option string;
  opt_maxHops : option Z;
  opt_fileId : option string;
  opt_chunkIndex : option Z;
  opt_totalChunks : option Z;
  opt_metadata : option value;
  opt_signalType : option string;
  opt_signalData : option value;
  opt_burstId : option string;
  opt_burstData : option value
}.

Definition noOptions : MessageOptions :=
{| opt_intent := None; opt_whisperTag := None; opt_ttl := None;
   opt_targetId := None; opt_maxHops := None; opt_fileId := None;
   opt_chunkIndex := None; opt_totalChunks := None; opt_metadata := None;
   opt_signalType := None; opt_signalData := None; opt_burstId := None;
   opt_burstData := None |}.

(** [o || d] on an optional string: the empty string is falsy. *)
Definition orString (o : option string) (d : string) : string :=
match o with
| Some s => if String.eqb s EmptyString then d else s
| None => d
end.

(** [o || d] on an optional integral number: zero is falsy. *)
Definition orZ (o : option Z) (d : Z) : Z :=
match o with
| Some z => if z =? 0 then d else z
| None => d
end.

(** [o || {}] on an optional object. *)
Definition orEmptyObject (o : option value) : value :=
match o with
| Some v => if truthy v then v else Obj []
| None => Obj []
end.

(** [createMessage]; [now] is [Date.now()], [uuid] is [crypto.randomUUID()]. *)
Definition createMessage (type : MessageType) (senderId payload : string)
  (options : MessageOptions) (now : Z) (uuid : string) : Message :=
let intent := orString (opt_intent options) "default" in
let resonanceKey := Entropy.deriveResonanceKey intent in
let whisperTag :=
  orString (opt_whisperTag options) (Entropy.generateWhisperTag intent None) in
let baseMessage :=
  {| type := type; senderId := senderId; resonanceKey := resonanceKey;
     whisperTag := whisperTag; payload := payload; timestamp := now;
     version := PROTOCOL_VERSION; ttl := orZ (opt_ttl options) 300000;
     nonce := uuid; fields := NoFields |} in
(* Add type-specific fields *)
match type with
| WHISPER => withFields baseMessage (WhisperFields (opt_targetId options))
| BROADCAST =>
    withFields baseMessage
      (BroadcastFields (orZ (opt_maxHops options) 10) 0 [senderId])
| RESONANCE => withFields baseMessage (ResonanceFields intent 1)
| FILE_SYNC =>
    withFields baseMessage
      (FileSyncFields (opt_fileId options) (orZ (opt_chunkIndex options) 0)
         (orZ (opt_totalChunks options) 1) (orEmptyObject (opt_metadata options)))
| MINING_SIGNAL =>
    withFields baseMessage
      (MiningSignalFields (opt_signalType options)
         (orEmptyObject (opt_signalData options)))
| DREAMSPACE =>
    withFields baseMessage
      (DreamspaceFields (opt_burstId options)
         (orEmptyObject (opt_burstData options)))
| _ => baseMessage
end.

End WithPlatform.

(** [serializeMessage]: the JSON text of
    [{...message, resonanceKey: Array.from(message.resonanceKey)}];
    [Array.from] of the typed array is the array of its bytes as numbers,
    and [JSON.stringify] of an object is never [undefined]. *)
Definition serializeMessage (message : Message) : JSON :=
let serialized :=
  setProp (toJS message) "resonanceKey"
    (Arr (List.map ofByte (resonanceKey message))) in
match stringify serialized with
| Some j => j
| None => JNull
end.

(** [deserializeMessage]; the cast [parsed as Message] checks nothing, so the
    result is a plain value. *)
Definition deserializeMessage (json : JSON) : Except value :=
let parsed := parse json in
match parsed with
| Null => Throw "TypeError: cannot read properties of null"
| _ =>
    match getProp parsed "resonanceKey" with
    | Arr elems => Return (setProp parsed "resonanceKey" (newUint8Array elems))
    | _ => Return parsed
    end
end.

Definition matchesResonance (message : Message) (targetIntent : string)
  (minStrength : Q) : bool :=
if negb (sameType (type message) RESONANCE) then false
else match fields message with
     | ResonanceFields intent strength =>
         if negb (String.eqb intent targetIntent) then false
         else if Qltb strength minStrength then false
         else true
     | _ => false
     end.

Definition getMessageAge (now : Z) (message : Message) : Z :=
now - timestamp message.

Definition isMessageExpired (now : Z) (message : Message) : bool :=
ttl message <? getMessageAge now message.

(** A well-formed record as the data model of the specification reads it.
    The common fields are there by the type of the record; the
    fields of the kind are present and in range: a Whisper has its target,
    a Broadcast has hop counts that are not negative, a Resonance has its
    intent and a strength in [0,1], the extension kinds have their
    identifier and structured data that JSON can carry, the other kinds add
    nothing. *)
Definition presentPerDataModel (m : Message) : bool :=
match type m, fields m with
| WHISPER, WhisperFields (Some _) => true
| BROADCAST, BroadcastFields maxHops currentHops _ =>
    (0 <=? maxHops) && (0 <=? currentHops)
| RESONANCE, ResonanceFields _ strength =>
    Qle_bool 0 strength && Qle_bool strength 1
| FILE_SYNC, FileSyncFields (Some _) _ _ metadata => jsonSafe metadata
| MINING_SIGNAL, MiningSignalFields (Some _) signalData => jsonSafe signalData
| DREAMSPACE, DreamspaceFields (Some _) burstData => jsonSafe burstData
| (PING | PONG | HELLO | GOODBYE | ERROR), NoFields => true
| _, _ => false
end.

(** [m'] is [m] with, at most, another payload. *)
Definition payloadApart (m m' : Message) : Prop :=
m' = withPayload m (payload m').

(** The fields of the kind survive a JSON text. *)
Definition wireSafe (m : Message) : bool :=
jsonSafe (Obj (kindProps (fields m))).

Definition nonEmpty (s : string) : bool := negb (String.eqb s EmptyString).

(** The fields [validateMessage] reads with [!field] are truthy: no empty
    string, no zero. *)
Definition requiredTruthy (m : Message) : bool :=
nonEmpty (senderId m) && nonEmpty (whisperTag m) && nonEmpty (payload m)
&& negb (timestamp m =? 0) && nonEmpty (version m) && (0 <? ttl m)
&& nonEmpty (nonce m)
&& match fields m with
   | WhisperFields (Some targetId) => nonEmpty targetId
   | ResonanceFields intent _ => nonEmpty intent
   | _ => true
   end.

(** A property of the kind, read from the fields of the kind. *)
Definition kindProp (m : Message) (k : string) : value :=
getProp (Obj (kindProps (fields m))) k.

(** The errors [validateMessage] reports for the object of a typed record,
    read off the fields of the record.  The type of a typed record is a
    member of the enum, its resonance key is a typed array, its timestamp
    and TTL are numbers: the checks on those never fire. *)
Definition typedErrors (now : Z) (m : Message) : list string :=
pushIf (negb (nonEmpty (senderId m))) "Missing sender ID"
++ pushIf (negb (nonEmpty (whisperTag m))) "Missing whisper tag"
++ pushIf (negb (nonEmpty (payload m))) "Missing payload"
++ pushIf (timestamp m =? 0) "Missing timestamp"
++ pushIf (negb (nonEmpty (version m))) "Missing version"
++ pushIf (ttl m =? 0) "Missing TTL"
++ pushIf (negb (nonEmpty (nonce m))) "Missing nonce"
++ pushIf (negb (ttl m =? 0) && (ttl m <? 0)) "TTL must be a positive number"
++ pushIf (negb (timestamp m =? 0) && negb (ttl m =? 0)
           && (ttl m <? now - timestamp m))
     "Message has expired"
++ pushIf (sameType (type m) WHISPER && negb (truthy (kindProp m "targetId")))
     "Whisper message missing target ID"
++ (if sameType (type m) BROADCAST
    then pushIf (negb (isNumber (kindProp m "maxHops"))
                 || negative (kindProp m "maxHops"))
           "Broadcast message must have valid maxHops"
         ++ pushIf (negb (isNumber (kindProp m "currentHops"))
                    || negative (kindProp m "currentHops"))
              "Broadcast message must have valid currentHops"
         ++ pushIf (negb (isArray (kindProp m "seenBy")))
              "Broadcast message must have seenBy array"
    else [])
++ (if sameType (type m) RESONANCE
    then pushIf (negb (truthy (kindProp m "intent")))
           "Resonance message missing intent"
         ++ pushIf (negb (isNumber (kindProp m "strength"))
                    || negative (kindProp m "strength")
                    || aboveOne (kindProp m "strength"))
              "Resonance strength must be between 0 and 1"
    else []).

(** [now - timestamp <= ttl] *)
Definition fresh (now : Z) (m : Message) : bool :=
now - timestamp m <=? ttl m.

(** [m] with another [version]. *)
Definition withVersion (m : Message) (v : string) : Message :=
{| type := type m; senderId := senderId m; resonanceKey := resonanceKey m;
   whisperTag := whisperTag m; payload := payload m; timestamp := timestamp m;
   version := v; ttl := ttl m; nonce := nonce m; fields := fields m |}.

End Protocol.

(** ** Node and connection management (whispurrnet/Node.ts) *)
Module Node.

Inductive ConnectionState : Type :=
| DISCONNECTED | CONNECTING | CONNECTED | RELAYING | ERROR.

Inductive ConnectionType : Type :=
| DIRECT | RELAY.

Record Quality : Type := {
  latency : Q;
  bandwidth : Q;
  reliability : Q
}.

Record PeerInfo : Type := {
  nodeId : string;
  state : ConnectionState;
  type : ConnectionType;
  publicKey : list byte;
  lastSeen : Z;
  quality : Quality;
  supportedTypes : list Protocol.MessageType
}.

(** What [connections] holds for a peer: an [RTCPeerConnection], or a
    [WebSocket] with [readyState === WebSocket.OPEN] or not. *)
Inductive Connection : Type :=
| RTCPeerConnection
| WebSocket (isOpen : bool).

(** The envelopes of the relay, as [ws.send(JSON.stringify(...))] writes them
    and [JSON.parse(event.data)] reads them. *)
Inductive RelayData : Type :=
| RelayConnect (from to : string) (senderKey : list byte)
| RelayMessage (from to : string) (payload : JS.JSON)
| RelayConnected
| RelayOther.

Inductive ConnectionEvent : Type :=
| Connected (peer : option PeerInfo)
| Disconnected (peerId reason : string)
| MessageEvent (message : JS.value) (peer : PeerInfo)
| ErrorEvent (error : string) (peerId : option string).

Record WhispurrNode : Type := {
  thisNodeId : string;
  keyPair : list byte * list byte;  (* publicKey, privateKey *)
  peers : list (string * PeerInfo);
  connections : gmap string Connection;
  heartbeatTimers : gset string;
  isShuttingDown : bool;
  (** events handed to the registered event handlers, oldest first *)
  emitted : list ConnectionEvent;
  (** envelopes handed to a relay socket, with the peer of the socket *)
  sent : list (string * RelayData);
  (** calls of [crypto.getRandomValues] so far *)
  draws : nat
}.

Definition withPeers (n : WhispurrNode) (ps : list (string * PeerInfo)) : WhispurrNode :=
{| thisNodeId := thisNodeId n; keyPair := keyPair n; peers := ps;
   connections := connections n; heartbeatTimers := heartbeatTimers n;
   isShuttingDown := isShuttingDown n; emitted := emitted n; sent := sent n;
   draws := draws n |}.

Definition withConnections (n : WhispurrNode) (cs : gmap string Connection) : WhispurrNode :=
{| thisNodeId := thisNodeId n; keyPair := keyPair n; peers := peers n;
   connections := cs; heartbeatTimers := heartbeatTimers n;
   isShuttingDown := isShuttingDown n; emitted := emitted n; sent := sent n;
   draws := draws n |}.

Definition withTimers (n : WhispurrNode) (ts : gset string) : WhispurrNode :=
{| thisNodeId := thisNodeId n; keyPair := keyPair n; peers := peers n;
   connections := connections n; heartbeatTimers := ts;
   isShuttingDown := isShuttingDown n; emitted := emitted n; sent := sent n;
   draws := draws n |}.

Definition withSent (n : WhispurrNode) (s : list (string * RelayData)) : WhispurrNode :=
{| thisNodeId := thisNodeId n; keyPair := keyPair n; peers := peers n;
   connections := connections n; heartbeatTimers := heartbeatTimers n;
   isShuttingDown := isShuttingDown n; emitted := emitted n; sent := s;
   draws := draws n |}.

Definition withDraws (n : WhispurrNode) (d : nat) : WhispurrNode :=
{| thisNodeId := thisNodeId n; keyPair := keyPair n; peers := peers n;
   connections := connections n; heartbeatTimers := heartbeatTimers n;
   isShuttingDown := isShuttingDown n; emitted := emitted n; sent := sent n;
   draws := d |}.

(** [emitEvent] *)
Definition emitEvent (n : WhispurrNode) (event : ConnectionEvent) : WhispurrNode :=
{| thisNodeId := thisNodeId n; keyPair := keyPair n; peers := peers n;
   connections := connections n; heartbeatTimers := heartbeatTimers n;
   isShuttingDown := isShuttingDown n; emitted := emitted n ++ [event];
   sent := sent n; draws := draws n |}.

Definition withState (p : PeerInfo) (s : ConnectionState) : PeerInfo :=
{| nodeId := nodeId p; state := s; type := type p; publicKey := publicKey p;
   lastSeen := lastSeen p; quality := quality p;
   supportedTypes := supportedTypes p |}.

Definition withLastSeen (p : PeerInfo) (t : Z) : PeerInfo :=
{| nodeId := nodeId p; state := state p; type := type p; publicKey := publicKey p;
   lastSeen := t; quality := quality p; supportedTypes := supportedTypes p |}.

(** [peer.state === CONNECTED || peer.state === RELAYING] *)
Definition canSend (s : ConnectionState) : bool :=
match s with CONNECTED | RELAYING => true | _ => false end.

Definition isConnected (s : ConnectionState) : bool :=
match s with CONNECTED => true | _ => false end.

(** One character of the base-64 alphabet. *)
Definition base64Char (n : Z) : ascii :=
if n <? 26 then ascii_of_N (Z.to_N (65 + n))
else if n <? 52 then ascii_of_N (Z.to_N (71 + n))
else if n <? 62 then ascii_of_N (Z.to_N (n - 4))
else if n =? 62 then "+"%char
else "/"%char.

(** [btoa(String.fromCharCode(...bytes))] *)
Fixpoint btoa (bytes : list byte) : string :=
match bytes with
| [] => EmptyString
| [a] =>
    let n := byteToZ a in
    String (base64Char (n / 4)) (String (base64Char (n mod 4 * 16)) "==")
| [a; b] =>
    let n := byteToZ a * 256 + byteToZ b in
    String (base64Char (n / 1024))
      (String (base64Char (n / 16 mod 64))
         (String (base64Char (n mod 16 * 4)) "="))
| a :: b :: c :: rest =>
    let n := byteToZ a * 65536 + byteToZ b * 256 + byteToZ c in
    String (base64Char (n / 262144))
      (String (base64Char (n / 4096 mod 64))
         (String (base64Char (n / 64 mod 64))
            (String (base64Char (n mod 64)) (btoa rest))))
end.

Section WithPlatform.
Context {platform : Platform}.

(** [crypto.getRandomValues(new Uint8Array(len))] at draw [k]: an array of
    exactly [len] bytes. *)
Definition getRandomValues (k : nat) (len : nat) : list byte :=
List.firstn len (entropySource k ++ List.repeat x00 len).

(** [encryptMessage]; [None] when a Web Crypto call throws.  The node comes
    back with the random draw counted. *)
Definition encryptMessage (n : WhispurrNode) (payload : string)
  (recipientPublicKey : list byte) : option string * WhispurrNode :=
match ecdhDeriveBits (snd (keyPair n)) recipientPublicKey with
| None => (None, n)
| Some sharedSecret =>
    let iv := getRandomValues (draws n) 12 in
    let n := withDraws n (S (draws n)) in
    match aesGcmEncrypt sharedSecret iv (Entropy.encode payload) with
    | None => (None, n)
    | Some encrypted => (Some (btoa (iv ++ encrypted)), n)
    end
end.

(** [sendMessage]: the result, the message object as the call leaves it
    (its payload is overwritten by the ciphertext), and the node. *)
Definition sendMessage (n : WhispurrNode) (peerId : string)
  (message : Protocol.Message) : bool * Protocol.Message * WhispurrNode :=
match OMap.get peerId (peers n), connections n !! peerId with
| Some peer, Some connection =>
    if negb (canSend (state peer)) then (false, message, n)
    else
      match encryptMessage n (Protocol.payload message) (publicKey peer) with
      | (None, n) => (false, message, n)
      | (Some encryptedPayload, n) =>
          let message := Protocol.withPayload message encryptedPayload in
          let serialized := Protocol.serializeMessage message in
          match connection with
          | RTCPeerConnection => (false, message, n)
          | WebSocket true =>
              let relayMessage := RelayMessage (thisNodeId n) peerId serialized in
              (true, message, withSent n (sent n ++ [(peerId, relayMessage)]))
          | WebSocket false => (false, message, n)
          end
      end
| _, _ => (false, message, n)
end.

(** The loop of [broadcastMessage] over the entries of the peer table. *)
Fixpoint broadcastLoop (entries : list (string * PeerInfo)) (n : WhispurrNode)
  (message : Protocol.Message) (successCount : Z)
  : Z * Protocol.Message * WhispurrNode :=
match entries with
| [] => (successCount, message, n)
| (peerId, peer) :: rest =>
    if canSend (state peer)
    then let '(success, message, n) := sendMessage n peerId message in
         broadcastLoop rest n message
           (if success then successCount + 1 else successCount)
    else broadcastLoop rest n message successCount
end.

Definition broadcastMessage (n : WhispurrNode) (message : Protocol.Message)
  : Z * Protocol.Message * WhispurrNode :=
broadcastLoop (peers n) n message 0.

Definition stopHeartbeat (n : WhispurrNode) (peerId : string) : WhispurrNode :=
withTimers n (heartbeatTimers n ∖ {[peerId]}).

Definition startHeartbeat (n : WhispurrNode) (peerId : string) : WhispurrNode :=
withTimers n ({[peerId]} ∪ heartbeatTimers n).

(** [handleDisconnection] *)
Definition handleDisconnection (n : WhispurrNode) (peerId reason : string)
  : WhispurrNode :=
let n :=
  match OMap.get peerId (peers n) with
  | Some peer => withPeers n (OMap.set peerId (withState peer DISCONNECTED) (peers n))
  | None => n
  end in
let n := withConnections n (delete peerId (connections n)) in
let n := stopHeartbeat n peerId in
emitEvent n (Disconnected peerId reason).

(** The callback [startHeartbeat] installs, run once; [now] and [uuid] are
    the clock and the identifier [createMessage] draws. *)
Definition heartbeatTick (n : WhispurrNode) (peerId : string) (now : Z)
  (uuid : string) : WhispurrNode :=
if isShuttingDown n then n
else match OMap.get peerId (peers n) with
     | None => stopHeartbeat n peerId
     | Some peer =>
         if negb (isConnected (state peer)) then stopHeartbeat n peerId
         else
           let ttlOption :=
             {| Protocol.opt_intent := None; Protocol.opt_whisperTag := None;
                Protocol.opt_ttl := Some 10000; Protocol.opt_targetId := None;
                Protocol.opt_maxHops := None; Protocol.opt_fileId := None;
                Protocol.opt_chunkIndex := None; Protocol.opt_totalChunks := None;
                Protocol.opt_metadata := None; Protocol.opt_signalType := None;
                Protocol.opt_signalData := None; Protocol.opt_burstId := None;
                Protocol.opt_burstData := None |} in
           let pingMessage :=
             Protocol.createMessage Protocol.PING (thisNodeId n) "" ttlOption
               now uuid in
           let '(success, _, n) := sendMessage n peerId pingMessage in
           if negb success then handleDisconnection n peerId "Heartbeat failed"
           else n
     end.

(** [handleMessage], up to the calls of the registered handlers, which are
    the subscriber's: the peer is refreshed and the event is emitted. *)
Definition handleMessage (n : WhispurrNode) (message : JS.value) (peer : PeerInfo)
  (now : Z) : WhispurrNode :=
let peer := withLastSeen peer now in
let n := withPeers n (OMap.set (nodeId peer) peer (peers n)) in
emitEvent n (MessageEvent message peer).

(** The gate shared by [dataChannel.onmessage] and [handleRelayMessage]:
    deserialize, look the peer up, validate; an exception is caught and the
    message is dropped.  The result is the message handed to
    [handleMessage], if any. *)
Definition acceptMessage (n : WhispurrNode) (json : JS.JSON) (peerId : string)
  (now : Z) : option (JS.value * PeerInfo) :=
match Protocol.deserializeMessage json with
| Throw _ => None
| Return message =>
    match OMap.get peerId (peers n) with
    | None => None
    | Some peer =>
        match Protocol.validateMessage now message with
        | Return result =>
            if Protocol.isValid result then Some (message, peer) else None
        | Throw _ => None
        end
    end
end.

(** [dataChannel.onmessage] *)
Definition dataChannelMessage (n : WhispurrNode) (json : JS.JSON)
  (peerId : string) (now : Z) : WhispurrNode :=
match acceptMessage n json peerId now with
| Some (message, peer) => handleMessage n message peer now
| None => n
end.

(** [handleRelayMessage] *)
Definition handleRelayMessage (n : WhispurrNode) (data : RelayData)
  (peerId : string) (now : Z) : WhispurrNode :=
match data with
| RelayMessage _ _ payload =>
    match acceptMessage n payload peerId now with
    | Some (message, peer) => handleMessage n message peer now
    | None => n
    end
| RelayConnected =>
    match OMap.get peerId (peers n) with
    | Some peer =>
        let peer := withState peer CONNECTED in
        let n := withPeers n (OMap.set peerId peer (peers n)) in
        let n := emitEvent n (Connected (Some peer)) in
        startHeartbeat n peerId
    | None => n
    end
| _ => n
end.

End WithPlatform.

(** The handlers [setupDataChannel] installs on a data channel.  [onopen]
    emits the event and starts the heartbeat even when the peer is not in
    the table. *)
Definition dataChannelOpen (n : WhispurrNode) (peerId : string) (now : Z)
  : WhispurrNode :=
match OMap.get peerId (peers n) with
| Some peer =>
    let peer := withLastSeen (withState peer CONNECTED) now in
    let n := withPeers n (OMap.set peerId peer (peers n)) in
    startHeartbeat (emitEvent n (Connected (Some peer))) peerId
| None => startHeartbeat (emitEvent n (Connected None)) peerId
end.

Definition dataChannelClose (n : WhispurrNode) (peerId : string) : WhispurrNode :=
handleDisconnection n peerId "Data channel closed".

Definition dataChannelError (n : WhispurrNode) (peerId : string) : WhispurrNode :=
handleDisconnection n peerId "Data channel error".

Definition allMessageTypes : list Protocol.MessageType := Protocol.messageTypeValues.

(** The bookkeeping of [attemptDirectConnection] once the offer is made. *)
Definition directConnectionStarted (n : WhispurrNode) (peerId : string)
  (peerPublicKey : list byte) (now : Z) : WhispurrNode :=
let n := withConnections n (<[peerId := RTCPeerConnection]> (connections n)) in
withPeers n
  (OMap.set peerId
     {| nodeId := peerId; state := CONNECTING; type := DIRECT;
        publicKey := peerPublicKey; lastSeen := now;
        quality := {| latency := 0; bandwidth := 0; reliability := 1 |};
        supportedTypes := allMessageTypes |}
     (peers n)).

(** The bookkeeping of [attemptRelayConnection] once a relay socket is open. *)
Definition relayConnectionOpened (n : WhispurrNode) (peerId : string)
  (peerPublicKey : list byte) (now : Z) : WhispurrNode :=
let connectionRequest := RelayConnect (thisNodeId n) peerId (fst (keyPair n)) in
let n := withSent n (sent n ++ [(peerId, connectionRequest)]) in
let n := withConnections n (<[peerId := WebSocket true]> (connections n)) in
withPeers n
  (OMap.set peerId
     {| nodeId := peerId; state := RELAYING; type := RELAY;
        publicKey := peerPublicKey; lastSeen := now;
        quality := {| latency := 100; bandwidth := 1 # 2; reliability := 4 # 5 |};
        supportedTypes := allMessageTypes |}
     (peers n)).

(** [getConnectedPeers] *)
Definition getConnectedPeers (n : WhispurrNode) : list PeerInfo :=
List.filter (fun peer => canSend (state peer)) (OMap.values (peers n)).

Definition getPeerInfo (n : WhispurrNode) (peerId : string) : option PeerInfo :=
OMap.get peerId (peers n).

(** [disconnectFromPeer]; closing the transport leaves the tables alone. *)
Definition disconnectFromPeer (n : WhispurrNode) (peerId : string) : WhispurrNode :=
handleDisconnection n peerId "Manual disconnect".

(** A node after [initialize]. *)
Definition initialized (nodeId : string) (publicKey privateKey : list byte)
  : WhispurrNode :=
{| thisNodeId := nodeId; keyPair := (publicKey, privateKey); peers := [];
   connections := ∅; heartbeatTimers := ∅; isShuttingDown := false;
   emitted := []; sent := []; draws := O |}.

(** What a connection attempt meets outside the node: whether the WebRTC
    calls of [attemptDirectConnection] go through, and [config.relayServers],
    absent or with, for each server in order, whether its socket opens. *)
Record Dialing : Type := {
  directWorks : bool;
  relayServers : option (list bool)
}.

(** [attemptDirectConnection]: an exception of a WebRTC call is caught
    before anything is stored. *)
Definition attemptDirectConnection (n : WhispurrNode) (peerId : string)
  (peerPublicKey : list byte) (now : Z) (env : Dialing) : bool * WhispurrNode :=
if directWorks env then (true, directConnectionStarted n peerId peerPublicKey now)
else (false, n).

(** The loop of [attemptRelayConnection]: the first server whose socket
    opens is used; a server that fails is skipped. *)
Fixpoint attemptRelayLoop (servers : list bool) (n : WhispurrNode)
  (peerId : string) (peerPublicKey : list byte) (now : Z) : bool * WhispurrNode :=
match servers with
| [] => (false, n)
| true :: _ => (true, relayConnectionOpened n peerId peerPublicKey now)
| false :: rest => attemptRelayLoop rest n peerId peerPublicKey now
end.

(** [attemptRelayConnection] *)
Definition attemptRelayConnection (n : WhispurrNode) (peerId : string)
  (peerPublicKey : list byte) (now : Z) (env : Dialing)
  : Except (bool * WhispurrNode) :=
match relayServers env with
| None | Some [] => Throw "No relay servers configured"
| Some servers => Return (attemptRelayLoop servers n peerId peerPublicKey now)
end.

(** [connectToPeer] *)
Definition connectToPeer (n : WhispurrNode) (peerId : string)
  (peerPublicKey : list byte) (now : Z) (env : Dialing)
  : Except (bool * WhispurrNode) :=
if negb (Entropy.validateNodeId peerId)
then Throw (String.append "Invalid peer ID: " peerId)
else if OMap.has peerId (peers n) then Return (true, n)
else
  (* Try direct WebRTC connection first *)
  let '(directSuccess, n) := attemptDirectConnection n peerId peerPublicKey now env in
  if directSuccess then Return (true, n)
  else
    (* Fallback to relay connection *)
    match attemptRelayConnection n peerId peerPublicKey now env with
    | Return result => Return result
    | Throw _ => Return (false, n)
    end.

(** [shutdown].  The handler tables it clears are the subscriber's and are
    not part of this state; [emitted] and [sent] stay as records of the
    past. *)
Definition shutdown (n : WhispurrNode) : WhispurrNode :=
let n :=
  {| thisNodeId := thisNodeId n; keyPair := keyPair n; peers := peers n;
     connections := connections n; heartbeatTimers := heartbeatTimers n;
     isShuttingDown := true; emitted := emitted n; sent := sent n;
     draws := draws n |} in
(* Stop all heartbeats *)
let n :=
  List.fold_left (fun n peerId => stopHeartbeat n peerId)
    (elements (heartbeatTimers n)) n in
(* Close all connections *)
let n := withConnections n ∅ in
withPeers n [].

End Node.

(** ** The orchestrator (whispurrnet/Whispurr.ts) *)
Module Whispurr.

(** An extension, without its code: a call of [handleMessage] is recorded
    in [handlerCalls]. *)
Record WhispurrExtension : Type := {
  id : string;
  version : string;
  supportedTypes : list Protocol.MessageType
}.

Record GossipConfig : Type := {
  maxHops : Z;
  gossipInterval : Z;
  messageTTL : Z;
  enableAutoPropagation : bool;
  maxConcurrentGossip : Z
}.

(** The defaults of the constructor. *)
Definition defaultGossip : GossipConfig :=
{| maxHops := 10; gossipInterval := 5000; messageTTL := 300000;
   enableAutoPropagation := true; maxConcurrentGossip := 5 |}.

(** One call [extension.handleMessage(message, peer)]. *)
Record HandlerCall : Type := {
  extension : string;
  handled : Protocol.Message;
  fromPeer : string
}.

Record Whispurr : Type := {
  node : Node.WhispurrNode;
  gossip : GossipConfig;
  extensions : list (string * WhispurrExtension);
  gossipQueue : list Protocol.Message;
  messageHistory : gmap string Z;
  messagesSent : Z;
  messagesReceived : Z;
  (** calls of extension handlers so far, oldest first *)
  handlerCalls : list HandlerCall;
  (** runs of [Math.random]-driven sorting so far *)
  shuffles : nat
}.

Definition withNode (w : Whispurr) (n : Node.WhispurrNode) : Whispurr :=
{| node := n; gossip := gossip w; extensions := extensions w;
   gossipQueue := gossipQueue w; messageHistory := messageHistory w;
   messagesSent := messagesSent w; messagesReceived := messagesReceived w;
   handlerCalls := handlerCalls w; shuffles := shuffles w |}.

Definition withQueue (w : Whispurr) (q : list Protocol.Message) : Whispurr :=
{| node := node w; gossip := gossip w; extensions := extensions w;
   gossipQueue := q; messageHistory := messageHistory w;
   messagesSent := messagesSent w; messagesReceived := messagesReceived w;
   handlerCalls := handlerCalls w; shuffles := shuffles w |}.

Definition withHistory (w : Whispurr) (h : gmap string Z) : Whispurr :=
{| node := node w; gossip := gossip w; extensions := extensions w;
   gossipQueue := gossipQueue w; messageHistory := h;
   messagesSent := messagesSent w; messagesReceived := messagesReceived w;
   handlerCalls := handlerCalls w; shuffles := shuffles w |}.

Definition withSentCount (w : Whispurr) (k : Z) : Whispurr :=
{| node := node w; gossip := gossip w; extensions := extensions w;
   gossipQueue := gossipQueue w; messageHistory := messageHistory w;
   messagesSent := k; messagesReceived := messagesReceived w;
   handlerCalls := handlerCalls w; shuffles := shuffles w |}.

Definition withReceivedCount (w : Whispurr) (k : Z) : Whispurr :=
{| node := node w; gossip := gossip w; extensions := extensions w;
   gossipQueue := gossipQueue w; messageHistory := messageHistory w;
   messagesSent := messagesSent w; messagesReceived := k;
   handlerCalls := handlerCalls w; shuffles := shuffles w |}.

Definition withCalls (w : Whispurr) (c : list HandlerCall) : Whispurr :=
{| node := node w; gossip := gossip w; extensions := extensions w;
   gossipQueue := gossipQueue w; messageHistory := messageHistory w;
   messagesSent := messagesSent w; messagesReceived := messagesReceived w;
   handlerCalls := c; shuffles := shuffles w |}.

Definition withShuffles (w : Whispurr) (k : nat) : Whispurr :=
{| node := node w; gossip := gossip w; extensions := extensions w;
   gossipQueue := gossipQueue w; messageHistory := messageHistory w;
   messagesSent := messagesSent w; messagesReceived := messagesReceived w;
   handlerCalls := handlerCalls w; shuffles := k |}.

Definition withExtensions (w : Whispurr) (e : list (string * WhispurrExtension))
  : Whispurr :=
{| node := node w; gossip := gossip w; extensions := e;
   gossipQueue := gossipQueue w; messageHistory := messageHistory w;
   messagesSent := messagesSent w; messagesReceived := messagesReceived w;
   handlerCalls := handlerCalls w; shuffles := shuffles w |}.

Definition getNodeId (w : Whispurr) : string := Node.thisNodeId (node w).

(** [supportedTypes.includes(t)] *)
Definition supports (e : WhispurrExtension) (t : Protocol.MessageType) : bool :=
List.existsb (Protocol.sameType t) (supportedTypes e).

(** [routeMessageToExtensions]: the extensions in registration order; an
    exception of a handler is caught and the loop goes on. *)
Definition routeMessageToExtensions (w : Whispurr) (message : Protocol.Message)
  (peer : Node.PeerInfo) : Whispurr :=
withCalls w
  (handlerCalls w
   ++ List.map
        (fun e => {| extension := id e; handled := message;
                     fromPeer := Node.nodeId peer |})
        (List.filter (fun e => supports e (Protocol.type message))
           (OMap.values (extensions w)))).

(** [checkResonance]: [strength > 0.5], whatever the intent. *)
Definition checkResonance (intent : string) (strength : Q) : bool :=
Protocol.Qltb (1 # 2) strength.

(** [handleResonanceMessage]; without a [strength] the comparison is with
    [undefined] and fails. *)
Definition handleResonanceMessage (w : Whispurr) (message : Protocol.Message)
  (peer : Node.PeerInfo) : Whispurr :=
match Protocol.fields message with
| Protocol.ResonanceFields intent strength =>
    if checkResonance intent strength
    then routeMessageToExtensions w message peer
    else w
| _ => w
end.

Fixpoint insertAt {A : Type} (i : nat) (x : A) (l : list A) : list A :=
match i, l with
| O, _ => x :: l
| S _, [] => [x]
| S i', y :: l' => y :: insertAt i' x l'
end.

(** An arrangement of [l] driven by random numbers: what
    [[...l].sort(() => Math.random() - 0.5)] can return. *)
Fixpoint arrange {A : Type} (choices : list nat) (l : list A) : list A :=
match l with
| [] => []
| x :: l' =>
    let rest := arrange (List.tl choices) l' in
    insertAt (Nat.modulo (List.hd O choices) (S (List.length rest))) x rest
end.

Section WithPlatform.
Context {platform : Platform}.

(** [selectGossipTargets] at random run [k]. *)
Definition selectGossipTargets (k : nat) (peers : list Node.PeerInfo)
  (count : nat) : list Node.PeerInfo :=
let shuffled := arrange (randomChoices k) peers in
List.firstn (Nat.min count (List.length shuffled)) shuffled.

(** The inner loop of [processGossipQueue]: one message to its targets.  The
    message object comes back as the sends left it: each send that got as
    far as encrypting has overwritten its payload. *)
Fixpoint gossipTo (targets : list Node.PeerInfo) (w : Whispurr)
  (message : Protocol.Message) : Whispurr * Protocol.Message :=
match targets with
| [] => (w, message)
| peer :: rest =>
    let '(success, message, n) :=
      Node.sendMessage (node w) (Node.nodeId peer) message in
    let w := withNode w n in
    let w := if success then withSentCount w (messagesSent w + 1) else w in
    gossipTo rest w message
end.

(** The outer loop of [processGossipQueue]; the messages taken from the
    queue come back as the pass left them. *)
Fixpoint gossipAll (messages : list Protocol.Message)
  (connectedPeers : list Node.PeerInfo) (w : Whispurr)
  : Whispurr * list Protocol.Message :=
match messages with
| [] => (w, [])
| message :: rest =>
    let targetPeers := selectGossipTargets (shuffles w) connectedPeers 3 in
    let w := withShuffles w (S (shuffles w)) in
    let '(w, message) := gossipTo targetPeers w message in
    let '(w, processed) := gossipAll rest connectedPeers w in
    (w, message :: processed)
end.

(** [processGossipQueue]: the orchestrator, and the messages the pass took
    from the head of the queue, as it left them. *)
Definition processGossipQueue (w : Whispurr) : Whispurr * list Protocol.Message :=
match gossipQueue w with
| [] => (w, [])
| _ :: _ =>
    let connectedPeers := Node.getConnectedPeers (node w) in
    match connectedPeers with
    | [] => (w, [])
    | _ :: _ =>
        let k := Z.to_nat (maxConcurrentGossip (gossip w)) in
        let messagesToProcess := List.firstn k (gossipQueue w) in
        let w := withQueue w (List.skipn k (gossipQueue w)) in
        gossipAll messagesToProcess connectedPeers w
    end
end.

(** [seenBy.includes(nodeId)] *)
Definition includes (l : list string) (s : string) : bool :=
List.existsb (String.eqb s) l.

(** [handleGossipMessage]: the orchestrator and the message object as the
    call leaves them.  The object that is pushed on the queue is the object
    of the caller: when the pass that follows takes it from the queue and
    sends it, the caller sees the payload the sends wrote.  A record without
    the broadcast fields makes the call throw before it changes anything. *)
Definition handleGossipMessage (w : Whispurr) (message : Protocol.Message)
  (peer : Node.PeerInfo) : Whispurr * Protocol.Message :=
match Protocol.fields message with
| Protocol.BroadcastFields maxHops currentHops seenBy =>
    (* Check if we should continue propagating *)
    if maxHops <=? currentHops then (w, message)
    (* Check if we've already seen this message *)
    else if includes seenBy (getNodeId w) then (w, message)
    else
      (* Add ourselves to seen list *)
      let message :=
        Protocol.withFields message
          (Protocol.BroadcastFields maxHops (currentHops + 1)
             (seenBy ++ [getNodeId w])) in
      (* Add to gossip queue for propagation *)
      let position := List.length (gossipQueue w) in
      let w := withQueue w (gossipQueue w ++ [message]) in
      (* Process gossip queue *)
      let '(w, processed) := processGossipQueue w in
      (w, List.nth position processed message)
| _ => (w, message)
end.

(** [cleanupMessageHistory] *)
Definition cleanupMessageHistory (w : Whispurr) (now : Z) : Whispurr :=
let cutoff := now - messageTTL (gossip w) in
withHistory w
  (filter (fun entry : string * Z => ¬ (snd entry < cutoff)) (messageHistory w)).

(** The key [`${message.senderId}:${message.nonce}`]. *)
Definition messageId (message : Protocol.Message) : string :=
String.append (Protocol.senderId message)
  (String.append ":" (Protocol.nonce message)).

(** [handleIncomingMessage] *)
Definition handleIncomingMessage (w : Whispurr) (message : Protocol.Message)
  (peer : Node.PeerInfo) (now : Z) : Whispurr * Protocol.Message :=
(* Check if message has expired *)
if Protocol.isMessageExpired now message then (w, message)
else
  (* Check if we've seen this message before (prevent loops) *)
  match messageHistory w !! messageId message with
  | Some _ => (w, message)
  | None =>
      (* Record message *)
      let w := withHistory w (<[messageId message := now]> (messageHistory w)) in
      (* Clean up old message history *)
      let w := cleanupMessageHistory w now in
      (* Route to appropriate handler *)
      match Protocol.type message with
      | Protocol.BROADCAST => handleGossipMessage w message peer
      | Protocol.RESONANCE => (handleResonanceMessage w message peer, message)
      | _ => (routeMessageToExtensions w message peer, message)
      end
  end.

Definition ttlOnly (t : Z) : Protocol.MessageOptions :=
{| Protocol.opt_intent := None; Protocol.opt_whisperTag := None;
   Protocol.opt_ttl := Some t; Protocol.opt_targetId := None;
   Protocol.opt_maxHops := None; Protocol.opt_fileId := None;
   Protocol.opt_chunkIndex := None; Protocol.opt_totalChunks := None;
   Protocol.opt_metadata := None; Protocol.opt_signalType := None;
   Protocol.opt_signalData := None; Protocol.opt_burstId := None;
   Protocol.opt_burstData := None |}.

(** The handlers [setupMessageHandlers] registers with the node, by the
    type they are registered for. *)
Definition registeredHandler (w : Whispurr) (message : Protocol.Message)
  (peer : Node.PeerInfo) (now : Z) (uuid : string) : Whispurr * Protocol.Message :=
match Protocol.type message with
| Protocol.PING =>
    let pongMessage :=
      Protocol.createMessage Protocol.PONG (getNodeId w) "" (ttlOnly 10000)
        now uuid in
    let '(_, _, n) := Node.sendMessage (node w) (Node.nodeId peer) pongMessage in
    (withNode w n, message)
| Protocol.BROADCAST => handleGossipMessage w message peer
| Protocol.RESONANCE => (handleResonanceMessage w message peer, message)
| _ => (routeMessageToExtensions w message peer, message)
end.

(** The ['message'] case of the handler [setupEventHandlers] gives the node. *)
Definition onMessageEvent (w : Whispurr) (message : Protocol.Message)
  (peer : Node.PeerInfo) (now : Z) : Whispurr * Protocol.Message :=
handleIncomingMessage (withReceivedCount w (messagesReceived w + 1)) message
  peer now.

(** A validated message reaches the orchestrator: [Node.handleMessage]
    refreshes the peer, emits the ['message'] event, then calls the handlers
    registered for the type of the message.  [message] is the typed view of
    the object the node accepted; the same object goes through both paths.
    The calls are taken one after the other; interleaving at an [await]
    changes the order of the recorded calls, not the calls. *)
Definition deliver (w : Whispurr) (message : Protocol.Message)
  (peer : Node.PeerInfo) (now : Z) (uuid : string) : Whispurr * Protocol.Message :=
let n := Node.handleMessage (node w) (Protocol.toJS message) peer now in
let peer := Node.withLastSeen peer now in
let w := withNode w n in
let '(w, message) := onMessageEvent w message peer now in
registeredHandler w message peer now uuid.

Definition intentOptions (intent : string) (whisperTag : string)
  : Protocol.MessageOptions :=
{| Protocol.opt_intent := Some intent; Protocol.opt_whisperTag := Some whisperTag;
   Protocol.opt_ttl := None; Protocol.opt_targetId := None;
   Protocol.opt_maxHops := None; Protocol.opt_fileId := None;
   Protocol.opt_chunkIndex := None; Protocol.opt_totalChunks := None;
   Protocol.opt_metadata := None; Protocol.opt_signalType := None;
   Protocol.opt_signalData := None; Protocol.opt_burstId := None;
   Protocol.opt_burstData := None |}.

(** The record [resonate] builds: the [strength] argument is not passed on. *)
Definition resonanceRecord (w : Whispurr) (intent : string) (strength : Q)
  (now : Z) (uuid : string) : Protocol.Message :=
let whisperTag := Entropy.generateWhisperTag intent None in
Protocol.createMessage Protocol.RESONANCE (getNodeId w) ""
  (intentOptions intent whisperTag) now uuid.

(** [resonate] *)
Definition resonate (w : Whispurr) (intent : string) (strength : Q) (now : Z)
  (uuid : string) : Z * Whispurr :=
let message := resonanceRecord w intent strength now uuid in
let '(successCount, _, n) := Node.broadcastMessage (node w) message in
let w := withNode w n in
(successCount, withSentCount w (messagesSent w + successCount)).

(** [whisper] *)
Definition whisper (w : Whispurr) (peerId content intent : string) (now : Z)
  (uuid : string) : bool * Whispurr :=
let whisperTag := Entropy.generateWhisperTag intent None in
let options :=
  {| Protocol.opt_intent := Some intent; Protocol.opt_whisperTag := Some whisperTag;
     Protocol.opt_ttl := None; Protocol.opt_targetId := Some peerId;
     Protocol.opt_maxHops := None; Protocol.opt_fileId := None;
     Protocol.opt_chunkIndex := None; Protocol.opt_totalChunks := None;
     Protocol.opt_metadata := None; Protocol.opt_signalType := None;
     Protocol.opt_signalData := None; Protocol.opt_burstId := None;
     Protocol.opt_burstData := None |} in
let message :=
  Protocol.createMessage Protocol.WHISPER (getNodeId w) content options now uuid in
let '(success, _, n) := Node.sendMessage (node w) peerId message in
let w := withNode w n in
(success, if success then withSentCount w (messagesSent w + 1) else w).

End WithPlatform.

(** What sending leaves alone: the identity of the node, the dedup history,
    the record of handler calls, the registry and the settings. *)
Definition sameTables (w w' : Whispurr) : Prop :=
getNodeId w' = getNodeId w
/\ messageHistory w' = messageHistory w
/\ handlerCalls w' = handlerCalls w
/\ extensions w' = extensions w
/\ gossip w' = gossip w.

(** [registerExtension] *)
Definition registerExtension (w : Whispurr) (e : WhispurrExtension)
  : Except Whispurr :=
if OMap.has (id e) (extensions w)
then Throw (String.append "Extension " (String.append (id e) " already registered"))
else Return (withExtensions w (OMap.set (id e) e (extensions w))).

(** An orchestrator after [initialize], with the default gossip settings. *)
Definition initialized (n : Node.WhispurrNode) : Whispurr :=
{| node := n; gossip := defaultGossip; extensions := []; gossipQueue := [];
   messageHistory := ∅; messagesSent := 0; messagesReceived := 0;
   handlerCalls := []; shuffles := O |}.

Section Broadcasting.
Context {platform : Platform}.

(** The options [broadcast] gives [createMessage]. *)
Definition broadcastOptions (w : Whispurr) (intent whisperTag : string)
  (maxHops : Z) : Protocol.MessageOptions :=
{| Protocol.opt_intent := Some intent; Protocol.opt_whisperTag := Some whisperTag;
   Protocol.opt_ttl := Some (messageTTL (gossip w)); Protocol.opt_targetId := None;
   Protocol.opt_maxHops := Some maxHops; Protocol.opt_fileId := None;
   Protocol.opt_chunkIndex := None; Protocol.opt_totalChunks := None;
   Protocol.opt_metadata := None; Protocol.opt_signalType := None;
   Protocol.opt_signalData := None; Protocol.opt_burstId := None;
   Protocol.opt_burstData := None |}.

(** The record [broadcast] builds. *)
Definition gossipRecord (w : Whispurr) (content intent : string) (maxHops : Z)
  (now : Z) (uuid : string) : Protocol.Message :=
let whisperTag := Entropy.generateWhisperTag intent None in
Protocol.createMessage Protocol.BROADCAST (getNodeId w) content
  (broadcastOptions w intent whisperTag maxHops) now uuid.

(** [broadcast]: the record is pushed on the gossip queue, then sent to the
    immediate peers.  The sends write the payload of the object that sits in
    the queue, so the queue holds the record as the sends left it. *)
Definition broadcast (w : Whispurr) (content intent : string) (maxHops : Z)
  (now : Z) (uuid : string) : Z * Whispurr :=
let message := gossipRecord w content intent maxHops now uuid in
let queued := gossipQueue w in
(* Send to immediate peers *)
let '(successCount, message, n) := Node.broadcastMessage (node w) message in
(* the object pushed on the queue, as the sends left it *)
let w := withQueue (withNode w n) (queued ++ [message]) in
(successCount, withSentCount w (messagesSent w + successCount)).

End Broadcasting.

(** [activeExtensions.indexOf(id)] followed by [splice(index, 1)]: the first
    occurrence goes. *)
Fixpoint removeFirst (s : string) (l : list string) : list string :=
match l with
| [] => []
| x :: rest => if String.eqb x s then rest else x :: removeFirst s rest
end.

(** The orchestrator with the parts the message paths do not read: the
    [isInitialized] flag, [stats.activeExtensions], and the calls made to
    [extension.initialize] and [extension.cleanup], oldest first. *)
Record Registry : Type := {
  orchestrator : Whispurr;
  isInitialized : bool;
  activeExtensions : list string;
  initializeCalls : list string;
  cleanupCalls : list string
}.

(** [registerExtension], with the bookkeeping of [stats] and the call of
    [initialize] on an orchestrator that is already initialized. *)
Definition register (r : Registry) (e : WhispurrExtension) : Except Registry :=
match registerExtension (orchestrator r) e with
| Throw msg => Throw msg
| Return w =>
    Return {| orchestrator := w;
              isInitialized := isInitialized r;
              activeExtensions := activeExtensions r ++ [id e];
              initializeCalls :=
                if isInitialized r then initializeCalls r ++ [id e]
                else initializeCalls r;
              cleanupCalls := cleanupCalls r |}
end.

(** [unregisterExtension]; [cleanupThrows] says whether [extension.cleanup()]
    rejects, in which case nothing has been removed. *)
Definition unregisterExtension (r : Registry) (extensionId : string)
  (cleanupThrows : bool) : Except Registry :=
match OMap.get extensionId (extensions (orchestrator r)) with
| None =>
    Throw (String.append "Extension " (String.append extensionId " not found"))
| Some _ =>
    if cleanupThrows then Throw "cleanup rejected"
    else
      Return {| orchestrator :=
                  withExtensions (orchestrator r)
                    (OMap.delete extensionId (extensions (orchestrator r)));
                isInitialized := isInitialized r;
                activeExtensions := removeFirst extensionId (activeExtensions r);
                initializeCalls := initializeCalls r;
                cleanupCalls := cleanupCalls r ++ [extensionId] |}
end.

(** A registry as the constructor leaves it. *)
Definition constructed (n : Node.WhispurrNode) : Registry :=
{| orchestrator := initialized n; isInitialized := false;
   activeExtensions := []; initializeCalls := []; cleanupCalls := [] |}.

(** The registry and [stats.activeExtensions] agree. *)
Definition registryInvariant (r : Registry) : Prop :=
activeExtensions r = List.map fst (extensions (orchestrator r))
/\ NoDup (activeExtensions r).

End Whispurr.

(** ** The bridge extensions (whispurrnet/extensions/*.ts) *)
Module Bridges.

Definition aiBridge : Whispurr.WhispurrExtension :=
{| Whispurr.id := "ai-bridge"; Whispurr.version := "1.0.0";
   Whispurr.supportedTypes := [Protocol.BROADCAST; Protocol.RESONANCE] |}.

Definition blockchainBridge : Whispurr.WhispurrExtension :=
{| Whispurr.id := "blockchain-bridge"; Whispurr.version := "1.0.0";
   Whispurr.supportedTypes := [Protocol.BROADCAST; Protocol.RESONANCE] |}.

Definition novaTinyBridge : Whispurr.WhispurrExtension :=
{| Whispurr.id := "nova-tiny-bridge"; Whispurr.version := "1.0.0";
   Whispurr.supportedTypes := [Protocol.BROADCAST; Protocol.RESONANCE] |}.

Definition fileSyncBridge : Whispurr.WhispurrExtension :=
{| Whispurr.id := "file-sync-bridge"; Whispurr.version := "1.0.0";
   Whispurr.supportedTypes := [Protocol.FILE_SYNC] |}.

(** [s.startsWith(prefix)] *)
Definition startsWith (s prefix : string) : bool := String.prefix prefix s.

(** The guard of [handleMessage] in the bridges that look at the whisper
    tag: [message.type === MessageType.BROADCAST &&
    message.whisperTag.startsWith(prefix)]. *)
Definition tagged (prefix : string) (message : Protocol.Message) : bool :=
Protocol.sameType (Protocol.type message) Protocol.BROADCAST
&& startsWith (Protocol.whisperTag message) prefix.

(** What each bridge reads a message under. *)
Definition aiBridgeReads : Protocol.Message -> bool := tagged "ai/".
Definition blockchainBridgeReads : Protocol.Message -> bool := tagged "blockchain/".
Definition novaTinyBridgeReads : Protocol.Message -> bool := tagged "nova-tiny/".
Definition fileSyncBridgeReads (message : Protocol.Message) : bool :=
Protocol.sameType (Protocol.type message) Protocol.FILE_SYNC.

Section WithPlatform.
Context {platform : Platform}.

(** The sending side of a bridge once it is initialized: the record
    [createMessage] builds is only read for its payload, the text of the
    argument, and [whispurr.broadcast(msg.payload, intent)] does the rest.
    [text] is [JSON.stringify] of the argument. *)
Definition sendModelUpdate (w : Whispurr.Whispurr) (text : string) (now : Z)
  (uuid : string) : Z * Whispurr.Whispurr :=
Whispurr.broadcast w text "ai/model_update" 10 now uuid.

Definition sendAnomalyAlert (w : Whispurr.Whispurr) (text : string) (now : Z)
  (uuid : string) : Z * Whispurr.Whispurr :=
Whispurr.broadcast w text "ai/anomaly" 10 now uuid.

Definition sendBlockEvent (w : Whispurr.Whispurr) (text : string) (now : Z)
  (uuid : string) : Z * Whispurr.Whispurr :=
Whispurr.broadcast w text "blockchain/block" 10 now uuid.

Definition sendTransactionEvent (w : Whispurr.Whispurr) (text : string) (now : Z)
  (uuid : string) : Z * Whispurr.Whispurr :=
Whispurr.broadcast w text "blockchain/tx" 10 now uuid.

Definition sendNovaTinyCommand (w : Whispurr.Whispurr) (text : string) (now : Z)
  (uuid : string) : Z * Whispurr.Whispurr :=
Whispurr.broadcast w text "nova-tiny/command" 10 now uuid.

Definition sendFileChunk (w : Whispurr.Whispurr) (text : string) (now : Z)
  (uuid : string) : Z * Whispurr.Whispurr :=
Whispurr.broadcast w text "file:sync" 10 now uuid.

End WithPlatform.

(** The intents the bridges broadcast under. *)
Definition bridgeIntents : list string :=
["ai/model_update"; "ai/anomaly"; "blockchain/block"; "blockchain/tx";
 "nova-tiny/command"; "file:sync"].

End Bridges.

(** ** The peer manager (src/peer/PeerManager.ts, src/peer/PeerAddressing.ts) *)
Module PeerManager.

(** What a transport offers for closing: a [close] function, else a
    [terminate] function, else nothing. *)
Inductive Closer : Type :=
| CloseFunction | TerminateFunction | NoCloser.

Record Transport : Type := {
  transportId : nat;
  closer : Closer
}.

Record PeerInfo : Type := {
  nodeId : string;
  publicKey : option (list byte);
  addresses : list string;
  lastSeen : option Z;
  metadata : option JS.value
}.

(** [PeerConnection extends PeerInfo] *)
Record PeerConnection : Type := {
  info : PeerInfo;
  connectionId : string;
  connected : bool;
  lastPing : option Z;
  latency : option Z;
  connectionTime : option Z;
  transport : option Transport
}.

Inductive Event : Type :=
| PeerUpdated (peer : PeerConnection)
| PeerAdded (peer : PeerConnection)
| PeerRemoved (peer : PeerConnection)
| PeerConnected (peer : PeerConnection)
| PeerDisconnected (peer : PeerConnection) (reason : string)
| TransportClose (t : Transport) (code : Z) (reason : string)
| TransportTerminate (t : Transport).

Record PeerManagerOptions : Type := {
  opt_nodeId : string;
  opt_maxPeers : option Z
}.

Record PeerManager : Type := {
  thisNodeId : string;
  maxPeers : Z;
  peers : list (string * PeerConnection);
  isRunning : bool;
  (** events emitted and transport calls made so far, oldest first *)
  emitted : list Event
}.

Definition constructor (options : PeerManagerOptions) : PeerManager :=
{| thisNodeId := opt_nodeId options;
   maxPeers := Protocol.orZ (opt_maxPeers options) 100;
   peers := [];
   isRunning := false;
   emitted := [] |}.

Definition withPeers (pm : PeerManager) (ps : list (string * PeerConnection))
  : PeerManager :=
{| thisNodeId := thisNodeId pm; maxPeers := maxPeers pm; peers := ps;
   isRunning := isRunning pm; emitted := emitted pm |}.

Definition emit (pm : PeerManager) (e : Event) : PeerManager :=
{| thisNodeId := thisNodeId pm; maxPeers := maxPeers pm; peers := peers pm;
   isRunning := isRunning pm; emitted := emitted pm ++ [e] |}.

Definition orElse {A : Type} (o d : option A) : option A :=
match o with Some _ => o | None => d end.

(** [{...a, ...b}] on peer infos: a property present in [b] wins. *)
Definition spread (a b : PeerInfo) : PeerInfo :=
{| nodeId := nodeId b;
   publicKey := orElse (publicKey b) (publicKey a);
   addresses := addresses b;
   lastSeen := orElse (lastSeen b) (lastSeen a);
   metadata := orElse (metadata b) (metadata a) |}.

Definition withLastSeen (i : PeerInfo) (t : Z) : PeerInfo :=
{| nodeId := nodeId i; publicKey := publicKey i; addresses := addresses i;
   lastSeen := Some t; metadata := metadata i |}.

Definition decimal (z : Z) : string :=
DecimalString.NilZero.string_of_int (Z.to_int z).

(** [PeerAddressing.generateConnectionId]; [random] is the fragment drawn
    from [Math.random]. *)
Definition generateConnectionId (peerId : string) (now : Z) (random : string)
  : string :=
String.append "conn-"
  (String.append (decimal now)
     (String.append "-"
        (String.append random (String.append "-" (String.substring 0 6 peerId))))).

(** [(a.lastSeen || 0)] *)
Definition lastSeenOr0 (p : PeerConnection) : Z :=
Protocol.orZ (lastSeen (info p)) 0.

Fixpoint insertSorted {A : Type} (cmp : A -> A -> Z) (x : A) (l : list A) : list A :=
match l with
| [] => [x]
| y :: l' => if cmp y x <? 0 then y :: insertSorted cmp x l' else x :: l
end.

(** [l.sort(cmp)]: the sort is stable. *)
Fixpoint sort {A : Type} (cmp : A -> A -> Z) (l : list A) : list A :=
match l with
| [] => []
| x :: l' => insertSorted cmp x (sort cmp l')
end.

(** [disconnect], run to its end.  When the transport has a [close]
    function the call awaits it, so everything after the [TransportClose]
    happens once the caller has gone on. *)
Definition disconnect (pm : PeerManager) (nodeId : string) (reason : string)
  : bool * PeerManager :=
match OMap.get nodeId (peers pm) with
| None => (false, pm)
| Some peer =>
    if negb (connected peer) then (false, pm)
    else
      let pm :=
        match transport peer with
        | Some t =>
            match closer t with
            | CloseFunction => emit pm (TransportClose t 1000 reason)
            | TerminateFunction => emit pm (TransportTerminate t)
            | NoCloser => pm
            end
        | None => pm
        end in
      let peer :=
        {| info := info peer; connectionId := connectionId peer;
           connected := false; lastPing := lastPing peer;
           latency := latency peer; connectionTime := connectionTime peer;
           transport := None |} in
      let pm := withPeers pm (OMap.set nodeId peer (peers pm)) in
      (true, emit pm (PeerDisconnected peer reason))
end.

Definition isSome {A : Type} (o : option A) : bool :=
match o with Some _ => true | None => false end.

(** The peer the eviction picks:
    [Array.from(peers.values()).sort((a, b) => (a.lastSeen || 0) - (b.lastSeen || 0))[0]] *)
Definition oldestPeer (pm : PeerManager) : option PeerConnection :=
List.head
  (sort (fun a b => lastSeenOr0 a - lastSeenOr0 b) (OMap.values (peers pm))).

(** [addPeer]; [now] is the clock, [random] feeds the connection id. *)
Definition addPeer (pm : PeerManager) (peerInfo : PeerInfo)
  (transport : option Transport) (now : Z) (random : string)
  : PeerConnection * PeerManager :=
match OMap.get (nodeId peerInfo) (peers pm) with
| Some existingPeer =>
    (* Update existing peer *)
    let updatedPeer :=
      {| info := withLastSeen (spread (info existingPeer) peerInfo) now;
         connectionId := connectionId existingPeer;
         connected := if isSome transport then true else connected existingPeer;
         lastPing := lastPing existingPeer;
         latency := latency existingPeer;
         connectionTime := connectionTime existingPeer;
         transport := orElse transport (PeerManager.transport existingPeer) |} in
    let pm := withPeers pm (OMap.set (nodeId peerInfo) updatedPeer (peers pm)) in
    (updatedPeer, emit pm (PeerUpdated updatedPeer))
| None =>
    (* Add new peer *)
    let pm :=
      if maxPeers pm <=? OMap.size (peers pm)
      then
        (* Evict the least recently seen peer *)
        match oldestPeer pm with
        | Some oldest =>
            let pm := snd (disconnect pm (nodeId (info oldest)) "Disconnected") in
            withPeers pm (OMap.delete (nodeId (info oldest)) (peers pm))
        | None => pm
        end
      else pm in
    let newPeer :=
      {| info := withLastSeen peerInfo now;
         connectionId := generateConnectionId (nodeId peerInfo) now random;
         connected := isSome transport;
         lastPing := None;
         latency := None;
         connectionTime := Some now;
         PeerManager.transport := transport |} in
    let pm := withPeers pm (OMap.set (nodeId peerInfo) newPeer (peers pm)) in
    (newPeer, emit pm (PeerAdded newPeer))
end.












(** [getPeer] *)
Definition getPeer (pm : PeerManager) (nodeId : string) : option PeerConnection :=
OMap.get nodeId (peers pm).

(** [getPeers] *)
Definition getPeers (pm : PeerManager) (connectedOnly : bool) : list PeerConnection :=
let peers := OMap.values (peers pm) in
if connectedOnly then List.filter connected peers else peers.

End PeerManager.

(** ** Peer addressing (src/peer/PeerAddressing.ts) *)
Module PeerAddressing.

(** What [bytesToHex] is handed: a typed array, or the promise a call of
    the [async] method [sha256] returns when it is not awaited. *)
Inductive Hashed : Type :=
| Uint8Array (bytes : list byte)
| PromiseOf (bytes : list byte).

(** [Array.from(x)]: the elements of a typed array; a promise is neither
    iterable nor array-like, so it gives the empty array. *)
Definition arrayFrom (x : Hashed) : list byte :=
match x with
| Uint8Array bytes => bytes
| PromiseOf _ => []
end.

(** [bytesToHex] *)
Definition bytesToHex (x : Hashed) : string := Entropy.bytesToHex (arrayFrom x).

(** The character class [[a-f0-9]] under the [i] flag. *)
Definition isHex (c : ascii) : bool :=
let n := N_of_ascii c in
((48 <=? n) && (n <=? 57) || (97 <=? n) && (n <=? 102)
 || (65 <=? n) && (n <=? 70))%N.

(** The character class [[a-z0-9]] under the [i] flag. *)
Definition isAlnum (c : ascii) : bool :=
let n := N_of_ascii c in
((48 <=? n) && (n <=? 57) || (97 <=? n) && (n <=? 122)
 || (65 <=? n) && (n <=? 90))%N.

(** The character class [\d]. *)
Definition isDigit (c : ascii) : bool :=
let n := N_of_ascii c in
((48 <=? n) && (n <=? 57))%N.

(** A letter as the [i] flag compares it. *)
Definition lower (c : ascii) : ascii :=
let n := N_of_ascii c in
if ((65 <=? n) && (n <=? 90))%N then ascii_of_N (n + 32) else c.

Fixpoint lowerAll (s : string) : string :=
match s with
| EmptyString => EmptyString
| String c s' => String (lower c) (lowerAll s')
end.

(** The longest prefix of [s] in a character class, and what follows it. *)
Fixpoint span (p : ascii -> bool) (s : string) : string * string :=
match s with
| EmptyString => (EmptyString, EmptyString)
| String c s' =>
    if p c then let '(run, rest) := span p s' in (String c run, rest)
    else (EmptyString, s)
end.

Fixpoint parseDecPrefix (s : string) (acc : option Z) : option Z :=
match s with
| EmptyString => acc
| String c s' =>
    if isDigit c
    then parseDecPrefix s'
           (Some (10 * (match acc with Some a => a | None => 0 end)
                  + (Z.of_N (N_of_ascii c) - 48)))
    else acc
end.

(** [parseInt(s, 10)] on a string that starts with its digits; [None] is
    [NaN] (no digit). *)
Definition parseInt10 (s : string) : option Z := parseDecPrefix s None.

(** [parseConnectionId]:
    [connectionId.match(/^conn-(\d+)-[a-z0-9]+-([a-f0-9]{6})/i)].  The
    character after a run of digits or of letters and digits has to be the
    hyphen, which is in neither class, so each run is the longest one and
    the match, when there is one, is unique. *)
Definition parseConnectionId (connectionId : string) : option (option Z * string) :=
if negb (String.eqb (lowerAll (String.substring 0 5 connectionId)) "conn-")
then None
else
  let rest := String.substring 5 (String.length connectionId - 5) connectionId in
  match span isDigit rest with
  | (String _ _ as digits, String "-" rest) =>
      match span isAlnum rest with
      | (String _ _, String "-" rest) =>
          let peerId := String.substring 0 6 rest in
          if Nat.eqb (String.length peerId) 6 && Entropy.allChars isHex peerId
          then Some (parseInt10 digits, peerId)
          else None
      | _ => None
      end
  | _ => None
  end.

(** [isValidNodeId]: [/^[a-f0-9]{32}:[a-f0-9]+$/i.test(nodeId)] *)
Definition isValidNodeId (nodeId : string) : bool :=
let hash := String.substring 0 32 nodeId in
Nat.eqb (String.length hash) 32 && Entropy.allChars isHex hash
&& match String.substring 32 (String.length nodeId - 32) nodeId with
   | String ":" (String _ _ as timestamp) => Entropy.allChars isHex timestamp
   | _ => false
   end.

(** [parseNodeId] *)
Definition parseNodeId (nodeId : string) : option (string * option Z) :=
if negb (isValidNodeId nodeId) then None
else
  let parts := Entropy.split ":" nodeId in
  Some (List.nth 0 parts EmptyString,
        Entropy.parseInt16 (List.nth 1 parts EmptyString)).

(** The pattern of [isValidNodeId] with its declarative meaning. *)
Definition nodeIdPattern : Entropy.regex :=
Entropy.Seq (Entropy.Times 32 (Entropy.Class isHex))
  (Entropy.Seq (Entropy.Lit ":") (Entropy.Plus (Entropy.Class isHex))).

(** The pattern of [parseConnectionId] up to the end of the peer part. *)
Definition connectionIdPattern : Entropy.regex :=
Entropy.Seq (Entropy.Class (fun c => Ascii.eqb (lower c) "c"))
  (Entropy.Seq (Entropy.Class (fun c => Ascii.eqb (lower c) "o"))
  (Entropy.Seq (Entropy.Class (fun c => Ascii.eqb (lower c) "n"))
  (Entropy.Seq (Entropy.Class (fun c => Ascii.eqb (lower c) "n"))
  (Entropy.Seq (Entropy.Lit "-")
  (Entropy.Seq (Entropy.Plus (Entropy.Class isDigit))
  (Entropy.Seq (Entropy.Lit "-")
  (Entropy.Seq (Entropy.Plus (Entropy.Class isAlnum))
  (Entropy.Seq (Entropy.Lit "-")
     (Entropy.Times 6 (Entropy.Class isHex)))))))))).

Section WithPlatform.
Context {platform : Platform}.

(** A call [this.sha256(data)]: the method is [async], and no caller awaits
    it, so what the caller holds is the promise. *)
Definition sha256 (data : list byte) : Hashed := PromiseOf (sha256 data).

(** [generatePeerId]; [randomBytes] is what [crypto.getRandomValues] wrote
    into the 16-byte array. *)
Definition generatePeerId (publicKey : option (list byte)) (randomBytes : list byte)
  : string :=
match publicKey with
| Some (_ :: _ as key) =>
    (* If we have a public key, use its hash as the ID *)
    String.substring 0 32 (bytesToHex (sha256 key))
| _ =>
    (* Otherwise generate a random ID *)
    bytesToHex (Uint8Array randomBytes)
end.

(** [generateNodeId] *)
Definition generateNodeId (publicKey : list byte) (now : Z) : string :=
let hash := sha256 publicKey in
let timestamp := Entropy.toString16 (now / 1000) in
String.append (String.substring 0 32 (bytesToHex hash))
  (String.append ":" timestamp).

(** [createPeerInfo] *)
Definition createPeerInfo (addresses : list string) (publicKey : option (list byte))
  (randomBytes : list byte) (now : Z) : PeerManager.PeerInfo :=
let nodeId :=
  match publicKey with
  | Some key => generateNodeId key now
  | None => generatePeerId None randomBytes
  end in
{| PeerManager.nodeId := nodeId;
   PeerManager.publicKey := publicKey;
   PeerManager.addresses := addresses;
   PeerManager.lastSeen := Some now;
   PeerManager.metadata := Some (JS.Obj []) |}.

End WithPlatform.

End PeerAddressing.

(** ** Sample values for the examples *)
Module Samples.

Definition nodeA : string := "000000000000000000000000000000aa:18bcfe56800".
Definition nodeB : string := "000000000000000000000000000000bb:18bcfe56800".
Definition clock : Z := 1700000000000.

(** A Whisper record with every field filled in. *)
Definition whisperRecord : Protocol.Message :=
{| Protocol.type := Protocol.WHISPER; Protocol.senderId := nodeA;
   Protocol.resonanceKey := [x01; x02; xff]; Protocol.whisperTag := "00aa11bb22cc33dd";
   Protocol.payload := "cGF5bG9hZA=="; Protocol.timestamp := clock;
   Protocol.version := "1.0.0"; Protocol.ttl := 300000;
   Protocol.nonce := "6f1c2a34-0000-4000-8000-000000000001";
   Protocol.fields := Protocol.WhisperFields (Some nodeB) |}.

Definition keyA : list byte * list byte := ([x04; x0a], [x30; x0a]).
Definition keyB : list byte * list byte := ([x04; x0b], [x30; x0b]).

(** Node A with peer B behind an open relay socket, the relay having
    confirmed the connection: B is [CONNECTED] and its heartbeat runs. *)
Definition senderNode : Node.WhispurrNode :=
@Node.handleRelayMessage samplePlatform
  (Node.relayConnectionOpened (Node.initialized nodeA (fst keyA) (snd keyA))
     nodeB (fst keyB) clock)
  Node.RelayConnected nodeB clock.

(** Node B with peer A, likewise. *)
Definition receiverNode : Node.WhispurrNode :=
@Node.handleRelayMessage samplePlatform
  (Node.relayConnectionOpened (Node.initialized nodeB (fst keyB) (snd keyB))
     nodeA (fst keyA) clock)
  Node.RelayConnected nodeA clock.

(** The options [{ ttl: 10000 }] of a heartbeat. *)
Definition heartbeatOptions : Protocol.MessageOptions :=
{| Protocol.opt_intent := None; Protocol.opt_whisperTag := None;
   Protocol.opt_ttl := Some 10000; Protocol.opt_targetId := None;
   Protocol.opt_maxHops := None; Protocol.opt_fileId := None;
   Protocol.opt_chunkIndex := None; Protocol.opt_totalChunks := None;
   Protocol.opt_metadata := None; Protocol.opt_signalType := None;
   Protocol.opt_signalData := None; Protocol.opt_burstId := None;
   Protocol.opt_burstData := None |}.

Definition pingNonce : string := "6f1c2a34-0000-4000-8000-000000000002".

(** The Ping of a heartbeat, as [createMessage] returns it. *)
Definition pingRecord : Protocol.Message :=
@Protocol.createMessage samplePlatform Protocol.PING nodeA "" heartbeatOptions
  clock pingNonce.

(** What [sendMessage] returns for the Ping of a heartbeat from A to B. *)
Definition pingSent : bool * Protocol.Message * Node.WhispurrNode :=
@Node.sendMessage samplePlatform senderNode nodeB pingRecord.

(** The payload of the last message envelope a node handed to a socket. *)
Definition lastPayload (n : Node.WhispurrNode) : option JS.JSON :=
match List.last (Node.sent n) (EmptyString, Node.RelayOther) with
| (_, Node.RelayMessage _ _ payload) => Some payload
| _ => None
end.

(** An extension that handles whispers and resonance. *)
Definition watcher : Whispurr.WhispurrExtension :=
{| Whispurr.id := "watcher"; Whispurr.version := "1.0.0";
   Whispurr.supportedTypes := [Protocol.WHISPER; Protocol.RESONANCE] |}.

(** The orchestrator of A, and the orchestrator of B with the extension
    registered. *)
Definition orchestratorA : Whispurr.Whispurr := Whispurr.initialized senderNode.

Definition orchestratorB : Whispurr.Whispurr :=
match Whispurr.registerExtension (Whispurr.initialized receiverNode) watcher with
| Return w => w
| Throw _ => Whispurr.initialized receiverNode
end.

(** The record B keeps for its peer A. *)
Definition peerA : Node.PeerInfo :=
{| Node.nodeId := nodeA; Node.state := Node.CONNECTED; Node.type := Node.RELAY;
   Node.publicKey := fst keyA; Node.lastSeen := clock;
   Node.quality := {| Node.latency := 100; Node.bandwidth := 1 # 2;
                      Node.reliability := 4 # 5 |};
   Node.supportedTypes := Node.allMessageTypes |}.

Definition resonanceNonce : string := "6f1c2a34-0000-4000-8000-000000000003".

(** What [resonate("mining:coord", 0.4)] on A hands to the node, and what
    the node returns for it. *)
Definition weakResonance : Protocol.Message :=
@Whispurr.resonanceRecord samplePlatform orchestratorA "mining:coord" (2 # 5)
  clock resonanceNonce.

Definition weakResonanceSent : Z * Protocol.Message * Node.WhispurrNode :=
@Node.broadcastMessage samplePlatform senderNode weakResonance.


(** The whisper of A reaches the orchestrator of B twice, ten milliseconds
    apart. *)
Definition firstDelivery : Whispurr.Whispurr * Protocol.Message :=
@Whispurr.deliver samplePlatform orchestratorB whisperRecord peerA (clock + 10)
  "6f1c2a34-0000-4000-8000-000000000005".

Definition secondDelivery : Whispurr.Whispurr * Protocol.Message :=
@Whispurr.deliver samplePlatform (fst firstDelivery) (snd firstDelivery) peerA
  (clock + 20) "6f1c2a34-0000-4000-8000-000000000006".

(** The sender and nonce of the record each handler call received. *)
Definition dedupKeys (w : Whispurr.Whispurr) : list (string * string * string) :=
List.map
  (fun call => (Whispurr.extension call,
                Protocol.senderId (Whispurr.handled call),
                Protocol.nonce (Whispurr.handled call)))
  (Whispurr.handlerCalls w).

(** A peer manager with room for two peers, and three peers to offer. *)
Definition capTwo : PeerManager.PeerManagerOptions :=
{| PeerManager.opt_nodeId := nodeA; PeerManager.opt_maxPeers := Some 2 |}.

Definition peerNamed (name : string) : PeerManager.PeerInfo :=
{| PeerManager.nodeId := name; PeerManager.publicKey := None;
   PeerManager.addresses := []; PeerManager.lastSeen := None;
   PeerManager.metadata := None |}.

Definition socket (k : nat) : option PeerManager.Transport :=
Some {| PeerManager.transportId := k; PeerManager.closer := PeerManager.CloseFunction |}.

Definition oneKnown : PeerManager.PeerManager :=
snd (PeerManager.addPeer (PeerManager.constructor capTwo) (peerNamed "peer-1")
       (socket 1) (clock + 100) "k3x9a1").

Definition twoKnown : PeerManager.PeerManager :=
snd (PeerManager.addPeer oneKnown (peerNamed "peer-2") (socket 2) (clock + 200)
       "p0q8b2").

Definition thirdAdded : PeerManager.PeerManager :=
snd (PeerManager.addPeer twoKnown (peerNamed "peer-3") (socket 3) (clock + 300)
       "z7w6c3").

End Samples.

(** * Properties *)

(** ** Insertion-ordered maps *)
Module OMapFacts.
Section Facts.
Context {V : Type}.
Implicit Types (m : list (string * V)) (k : string) (v : V).

Lemma get_set_same k v m : OMap.get k (OMap.set k v m) = Some v.
Proof.
  induction m as [|[k' v'] m IH]; simpl.
  - now rewrite String.eqb_refl.
  - destruct (String.eqb k k') eqn:E; simpl.
    + now rewrite String.eqb_refl.
    + now rewrite E.
Qed.

Lemma get_set_other k k' v m :
  k <> k' -> OMap.get k' (OMap.set k v m) = OMap.get k' m.
Proof.
  intros Hne. induction m as [|[k0 v0] m IH]; simpl.
  - destruct (String.eqb k' k) eqn:E; [|reflexivity].
    apply String.eqb_eq in E. congruence.
  - destruct (String.eqb k k0) eqn:E; simpl.
    + apply String.eqb_eq in E. subst k0.
      destruct (String.eqb k' k) eqn:E'; [|reflexivity].
      apply String.eqb_eq in E'. congruence.
    + now rewrite IH.
Qed.








End Facts.
End OMapFacts.

(** ** Node identifiers *)
Module EntropyFacts.
Import Entropy.

Lemma append_nil_l s : String.append EmptyString s = s.
Proof. reflexivity. Qed.

Lemma append_cons c s t :
  String.append (String c s) t = String c (String.append s t).
Proof. reflexivity. Qed.

Lemma append_nil_r s : String.append s EmptyString = s.
Proof.
  induction s as [|c s IH]; [reflexivity|]. rewrite append_cons. now rewrite IH.
Qed.

Lemma allChars_append p s1 s2 :
  allChars p (String.append s1 s2) = allChars p s1 && allChars p s2.
Proof.
  induction s1 as [|c s1 IH]; [reflexivity|].
  rewrite append_cons. simpl. rewrite IH. now rewrite andb_assoc.
Qed.

Lemma length_append s1 s2 :
  String.length (String.append s1 s2) = (String.length s1 + String.length s2)%nat.
Proof.
  induction s1 as [|c s1 IH]; [reflexivity|].
  rewrite append_cons. simpl. now rewrite IH.
Qed.

Lemma hexDigit_range d :
  0 <= d < 16 -> isLowerHex (hexDigit d) = true /\ hexVal (hexDigit d) = Some d.
Proof.
  intros H.
  assert (Hd : d = 0 \/ d = 1 \/ d = 2 \/ d = 3 \/ d = 4 \/ d = 5 \/ d = 6 \/ d = 7
               \/ d = 8 \/ d = 9 \/ d = 10 \/ d = 11 \/ d = 12 \/ d = 13 \/ d = 14
               \/ d = 15) by lia.
  repeat (destruct Hd as [-> | Hd]; [split; reflexivity|]).
  subst d. split; reflexivity.
Qed.

Lemma hexDigits_lower fuel : forall n acc,
  allChars isLowerHex acc = true ->
  allChars isLowerHex (hexDigits fuel n acc) = true.
Proof.
  induction fuel as [|fuel IH]; intros n acc Hacc; simpl; [assumption|].
  assert (Hd : isLowerHex (hexDigit (n mod 16)) = true).
  { apply hexDigit_range. apply Z.mod_pos_bound. lia. }
  destruct (n / 16 =? 0).
  - simpl. now rewrite Hd.
  - apply IH. simpl. now rewrite Hd.
Qed.

Lemma hexDigits_nonempty fuel n acc :
  hexDigits (S fuel) n acc <> EmptyString.
Proof.
  revert n acc. induction fuel as [|fuel IH]; intros n acc.
  - simpl. destruct (n / 16 =? 0); discriminate.
  - change (hexDigits (S (S fuel)) n acc)
      with (let acc' := String (hexDigit (n mod 16)) acc in
            if n / 16 =? 0 then acc' else hexDigits (S fuel) (n / 16) acc').
    cbv zeta. destruct (n / 16 =? 0); [discriminate|apply IH].
Qed.

(** Reading back the digits gives the number, when the fuel covers it. *)
Lemma parse_hexDigits fuel : forall n acc,
  0 <= n < 16 ^ Z.of_nat (S fuel) ->
  parseHexPrefix (hexDigits (S fuel) n acc) None = parseHexPrefix acc (Some n).
Proof.
  induction fuel as [|fuel IH]; intros n acc Hn.
  - assert (Hq : n / 16 = 0) by (apply Z.div_small; simpl in Hn; lia).
    assert (Hm : n mod 16 = n) by (apply Z.mod_small; simpl in Hn; lia).
    simpl. rewrite Hq, Hm. simpl.
    destruct (hexDigit_range n) as [_ ->]; [simpl in Hn; lia|].
    now rewrite Z.add_0_l.
  - change (hexDigits (S (S fuel)) n acc)
      with (let acc' := String (hexDigit (n mod 16)) acc in
            if n / 16 =? 0 then acc' else hexDigits (S fuel) (n / 16) acc').
    cbv zeta.
    pose proof (Z.mod_pos_bound n 16 ltac:(lia)) as Hmod.
    destruct (hexDigit_range (n mod 16) Hmod) as [_ Hval].
    destruct (n / 16 =? 0) eqn:Hq.
    + apply Z.eqb_eq in Hq.
      simpl. rewrite Hval.
      f_equal. f_equal. pose proof (Z.div_mod n 16 ltac:(lia)). lia.
    + apply Z.eqb_neq in Hq.
      rewrite IH.
      * simpl. rewrite Hval. f_equal. f_equal.
        pose proof (Z.div_mod n 16 ltac:(lia)). lia.
      * split; [apply Z.div_pos; lia|].
        apply Z.div_lt_upper_bound; [lia|].
        replace (Z.of_nat (S (S fuel))) with (Z.succ (Z.of_nat (S fuel))) in Hn by lia.
        rewrite Z.pow_succ_r in Hn by lia. lia.
Qed.

Lemma fuel_covers n :
  0 <= n -> n < 16 ^ Z.of_nat (S (Z.to_nat (Z.log2 n))).
Proof.
  intros Hn.
  pose proof (Z.log2_nonneg n) as Hl.
  replace (Z.of_nat (S (Z.to_nat (Z.log2 n)))) with (Z.succ (Z.log2 n)) by lia.
  destruct (Z.eq_dec n 0) as [->|Hne].
  - simpl. lia.
  - pose proof (Z.log2_spec n ltac:(lia)) as [_ Hup].
    eapply Z.lt_le_trans; [exact Hup|].
    apply Z.pow_le_mono_l. lia.
Qed.

Lemma toString16_lower n : 0 <= n -> allChars isLowerHex (toString16 n) = true.
Proof.
  intros Hn. unfold toString16.
  destruct (n <? 0) eqn:E; [apply Z.ltb_lt in E; lia|].
  now apply hexDigits_lower.
Qed.

Lemma toString16_nonempty n : 0 <= n -> toString16 n <> EmptyString.
Proof.
  intros Hn. unfold toString16.
  destruct (n <? 0) eqn:E; [apply Z.ltb_lt in E; lia|].
  apply hexDigits_nonempty.
Qed.

Lemma parseInt16_toString16 n : 0 <= n -> parseInt16 (toString16 n) = Some n.
Proof.
  intros Hn. unfold parseInt16, toString16.
  destruct (n <? 0) eqn:E; [apply Z.ltb_lt in E; lia|].
  rewrite parse_hexDigits; [reflexivity|].
  split; [assumption|now apply fuel_covers].
Qed.

(** A byte prints as two lowercase digits. *)
Lemma byte_hex b :
  String.length (padStart (toString16 (byteToZ b)) 2 "0") = 2%nat
  /\ allChars isLowerHex (padStart (toString16 (byteToZ b)) 2 "0") = true.
Proof. destruct b; split; vm_compute; reflexivity. Qed.

Lemma bytesToHex_cons b bs :
  bytesToHex (b :: bs)
  = String.append (padStart (toString16 (byteToZ b)) 2 "0") (bytesToHex bs).
Proof.
  unfold bytesToHex. simpl.
  destruct (List.map _ bs) as [|x xs] eqn:E.
  - simpl. now rewrite append_nil_r.
  - reflexivity.
Qed.

Lemma bytesToHex_shape bs :
  String.length (bytesToHex bs) = (2 * List.length bs)%nat
  /\ allChars isLowerHex (bytesToHex bs) = true.
Proof.
  induction bs as [|b bs [IHl IHc]]; [split; reflexivity|].
  rewrite bytesToHex_cons, length_append, allChars_append.
  destruct (byte_hex b) as [Hl Hc].
  rewrite Hl, Hc, IHl, IHc. split; [simpl; lia|reflexivity].
Qed.

Lemma lowerHex_not_colon c : isLowerHex c = true -> Ascii.eqb c ":" = false.
Proof.
  intros H. destruct (Ascii.eqb c ":") eqn:E; [|reflexivity].
  apply Ascii.eqb_eq in E. subst c. discriminate H.
Qed.

Lemma split_no_colon s :
  allChars isLowerHex s = true -> split ":" s = [s].
Proof.
  induction s as [|c s IH]; simpl; [reflexivity|].
  intros H. apply andb_true_iff in H as [Hc Hs].
  rewrite (lowerHex_not_colon c Hc), (IH Hs). reflexivity.
Qed.

Lemma split_append s t :
  allChars isLowerHex s = true ->
  split ":" (String.append s (String ":" t)) = s :: split ":" t.
Proof.
  induction s as [|c s IH]; simpl.
  - reflexivity.
  - intros H. apply andb_true_iff in H as [Hc Hs].
    rewrite (lowerHex_not_colon c Hc), (IH Hs). reflexivity.
Qed.

Lemma split_nonempty sep s : split sep s <> [].
Proof.
  destruct s as [|c s]; simpl; [discriminate|].
  destruct (Ascii.eqb c sep); [discriminate|].
  destruct (split sep s); discriminate.
Qed.

Lemma join_split sep s : join sep (split sep s) = s.
Proof.
  induction s as [|c s IH]; [reflexivity|].
  simpl. pose proof (split_nonempty sep s) as Hne.
  destruct (split sep s) as [|h t]; [congruence|].
  destruct (Ascii.eqb c sep) eqn:E.
  - apply Ascii.eqb_eq in E. subst c.
    change (join sep (EmptyString :: h :: t)) with (String sep (join sep (h :: t))).
    now rewrite IH.
  - rewrite <- IH. destruct t; reflexivity.
Qed.

(** Two parts come from a string with the separator between them. *)
Lemma split_two sep s a b :
  split sep s = [a; b] -> s = String.append a (String sep b).
Proof.
  intros H. rewrite <- (join_split sep s), H. reflexivity.
Qed.

Lemma matches_times p s :
  allChars p s = true -> matches (Times (String.length s) (Class p)) s.
Proof.
  induction s as [|c s IH]; simpl; intros H; [constructor|].
  apply andb_true_iff in H as [Hc Hs].
  change (String c s) with (String.append (String c EmptyString) s).
  constructor; [now constructor|now apply IH].
Qed.

Lemma matches_plus p s :
  s <> EmptyString -> allChars p s = true -> matches (Plus (Class p)) s.
Proof.
  induction s as [|c s IH]; [congruence|].
  intros _ H. simpl in H. apply andb_true_iff in H as [Hc Hs].
  destruct s as [|c' s'].
  - apply MPlus1. now constructor.
  - change (String c (String c' s'))
      with (String.append (String c EmptyString) (String c' s')).
    apply MPlusS; [now constructor|]. apply IH; [discriminate|assumption].
Qed.

Lemma class_inv p s :
  matches (Class p) s -> exists c, s = String c EmptyString /\ p c = true.
Proof. intros H. inversion H; subst. eauto. Qed.

Lemma times_inv p n : forall s,
  matches (Times n (Class p)) s -> String.length s = n /\ allChars p s = true.
Proof.
  induction n as [|n IH]; intros s H; inversion H as [| | | |n' r s1 s2 H1 H2| |]; subst.
  - split; reflexivity.
  - apply class_inv in H1 as (c & -> & Hp).
    destruct (IH _ H2) as [Hl Ha].
    rewrite append_cons, append_nil_l. simpl.
    rewrite Hl, Hp, Ha. split; reflexivity.
Qed.

Lemma plus_inv p s :
  matches (Plus (Class p)) s -> s <> EmptyString /\ allChars p s = true.
Proof.
  intros H. remember (Plus (Class p)) as r eqn:Er.
  induction H as [| | | | |r s H|r s1 s2 H1 _ H2 IH2]; try discriminate;
    injection Er as ->.
  - apply class_inv in H as (c & -> & Hp).
    simpl. rewrite Hp. split; [discriminate|reflexivity].
  - apply class_inv in H1 as (c & -> & Hp).
    destruct IH2 as [_ Ha]; [reflexivity|].
    rewrite append_cons, append_nil_l. simpl.
    rewrite Hp, Ha. split; [discriminate|reflexivity].
Qed.

(** C7.  A node id generated from any 16 entropy bytes and any non-negative
    clock value [t] passes [validateNodeId], and [extractTimestamp] returns
    exactly [t] for it. *)
Theorem generated_node_id_valid (entropy : list byte) (t : Z) :
  List.length entropy = 16%nat ->
  0 <= t ->
  validateNodeId (generateEphemeralNodeId entropy t) = true
  /\ extractTimestamp (generateEphemeralNodeId entropy t) = Return (Some t).
Proof.
  intros Hlen Ht.
  destruct (bytesToHex_shape entropy) as [Hl Hc].
  assert (Hsplit : split ":" (generateEphemeralNodeId entropy t)
                   = [bytesToHex entropy; toString16 t]).
  { unfold generateEphemeralNodeId.
    rewrite (split_append _ _ Hc), (split_no_colon _ (toString16_lower t Ht)).
    reflexivity. }
  assert (Hvalid : validateNodeId (generateEphemeralNodeId entropy t) = true).
  { unfold validateNodeId. rewrite Hsplit.
    unfold testHex32, testHexPlus. rewrite Hl, Hlen, Hc. simpl.
    pose proof (toString16_lower t Ht) as Hts.
    pose proof (toString16_nonempty t Ht) as Hne.
    destruct (toString16 t); [congruence|]. now rewrite Hts. }
  split; [assumption|].
  unfold extractTimestamp. rewrite Hvalid, Hsplit. simpl.
  now rewrite parseInt16_toString16.
Qed.

Lemma generated_node_id_valid_witness :
  validateNodeId
    (generateEphemeralNodeId (List.repeat x00 15 ++ [xab]) 1700000000000) = true
  /\ extractTimestamp
       (generateEphemeralNodeId (List.repeat x00 15 ++ [xab]) 1700000000000)
     = Return (Some 1700000000000).
Proof.
  apply (generated_node_id_valid (List.repeat x00 15 ++ [xab]) 1700000000000).
  - reflexivity.
  - lia.
Defined.

(** C8.  [validateNodeId s] is true exactly when [s] matches
    [^[0-9a-f]{32}:[0-9a-f]+$]. *)
Theorem validateNodeId_iff_pattern (s : string) :
  validateNodeId s = true <-> matches nodeIdPattern s.
Proof.
  split.
  - unfold validateNodeId. intros H.
    destruct (split ":" s) as [|e [|t [|x l]]] eqn:Es; try discriminate.
    destruct (testHex32 e) eqn:He; simpl in H; [|discriminate].
    destruct (testHexPlus t) eqn:Ht; simpl in H; [|discriminate].
    rewrite (split_two _ _ _ _ Es).
    unfold testHex32 in He. apply andb_true_iff in He as [Hl Hc].
    apply Nat.eqb_eq in Hl.
    unfold nodeIdPattern. constructor.
    + rewrite <- Hl. now apply matches_times.
    + change (String ":" t) with (String.append (String ":" EmptyString) t).
      constructor; [constructor|].
      unfold testHexPlus in Ht. destruct t as [|c t]; [discriminate|].
      apply matches_plus; [discriminate|assumption].
  - unfold nodeIdPattern. intros H.
    inversion H as [| |r1 r2 s1 s2 H1 H2| | | |]; subst.
    inversion H2 as [| |r1 r2 s3 s4 H3 H4| | | |]; subst.
    inversion H3; subst.
    apply times_inv in H1 as [Hl Hc].
    apply plus_inv in H4 as [Hne Ha].
    rewrite append_cons, append_nil_l. unfold validateNodeId.
    rewrite (split_append _ _ Hc), (split_no_colon _ Ha).
    unfold testHex32, testHexPlus. rewrite Hl, Hc. simpl.
    destruct s4; [congruence|]. now rewrite Ha.
Qed.

End EntropyFacts.

(** ** JSON carries safe values unchanged *)
Module JSFacts.
Import JS.

Lemma value_ind_nested (P : value -> Prop) :
  P Undefined -> P Null -> (forall b, P (Bool b)) -> (forall q, P (Num q)) ->
  (forall s, P (Str s)) ->
  (forall l, Forall P l -> P (Arr l)) ->
  (forall props, Forall (fun kx => P (snd kx)) props -> P (Obj props)) ->
  (forall bs, P (Bytes bs)) ->
  forall v, P v.
Proof.
  intros HU HN HB HQ HS HA HO HY.
  fix IH 1. intros [| |b|q|s|l|props|bs].
  - exact HU.
  - exact HN.
  - apply HB.
  - apply HQ.
  - apply HS.
  - apply HA. induction l as [|x l IHl]; constructor; [apply IH|exact IHl].
  - apply HO. induction props as [|[k x] props IHp]; constructor;
      [apply IH|exact IHp].
  - apply HY.
Qed.

Lemma set_absent {V : Type} k (v : V) acc :
  OMap.get k acc = None -> OMap.set k v acc = acc ++ [(k, v)].
Proof.
  induction acc as [|[k' v'] acc IH]; simpl; [reflexivity|].
  destruct (String.eqb k k'); [discriminate|].
  intros H. now rewrite IH.
Qed.

Lemma get_app_absent {V : Type} k k' (v : V) acc :
  OMap.get k' acc = None -> k' <> k -> OMap.get k' (acc ++ [(k, v)]) = None.
Proof.
  induction acc as [|[k0 v0] acc IH]; simpl; intros H Hne.
  - destruct (String.eqb k' k) eqn:E; [|reflexivity].
    apply String.eqb_eq in E. congruence.
  - destruct (String.eqb k' k0); [discriminate|]. now apply IH.
Qed.

Lemma members_of_safe props :
  Forall (fun kx => carried (snd kx)) props ->
  List.forallb (fun kx => jsonSafe (snd kx)) props = true ->
  List.fold_right (fun kx rest => member (fst kx) (stringify (snd kx)) rest)
    [] props
  = List.map (fun kx => (fst kx, element (stringify (snd kx)))) props.
Proof.
  induction 1 as [|[k x] props Hx _ IH]; simpl; [reflexivity|].
  intros H. apply andb_true_iff in H as [Hs Hrest].
  rewrite (IH Hrest). destruct (Hx Hs) as [Hne _]. simpl in Hne.
  destruct (stringify x); [reflexivity|congruence].
Qed.

Lemma build_of_safe props :
  Forall (fun kx => carried (snd kx)) props ->
  List.forallb (fun kx => jsonSafe (snd kx)) props = true ->
  keysDistinct props = true ->
  forall acc,
  (forall k, OMap.has k props = true -> OMap.get k acc = None) ->
  List.fold_left (fun acc kj => OMap.set (fst kj) (parse (snd kj)) acc)
    (List.map (fun kx => (fst kx, element (stringify (snd kx)))) props) acc
  = acc ++ props.
Proof.
  induction 1 as [|[k x] props Hx _ IH]; simpl; intros Hsafe Hkeys acc Hacc.
  - now rewrite app_nil_r.
  - apply andb_true_iff in Hsafe as [Hs Hrest].
    apply andb_true_iff in Hkeys as [Hk Hdist].
    destruct (Hx Hs) as [_ Hback]. simpl in Hback. rewrite Hback.
    assert (Hnone : OMap.get k acc = None).
    { apply Hacc. unfold OMap.has. simpl. now rewrite String.eqb_refl. }
    rewrite (set_absent _ _ _ Hnone), IH; try assumption.
    + now rewrite <- app_assoc.
    + intros k' Hk'. apply get_app_absent.
      * apply Hacc. unfold OMap.has in *. simpl.
        destruct (String.eqb k' k); [reflexivity|assumption].
      * intros ->. rewrite Hk' in Hk. discriminate.
Qed.

(** What [JSON.parse(JSON.stringify(v))] returns for a safe value is [v]. *)
Lemma parse_stringify v : carried v.
Proof.
  induction v as [| |b|q|s|l IH|props IH|bs] using value_ind_nested;
    unfold carried; simpl; intros Hsafe; try discriminate;
    try (split; [discriminate|reflexivity]).
  - split; [discriminate|]. f_equal.
    induction IH as [|x l Hx _ IHl]; simpl in *; [reflexivity|].
    apply andb_true_iff in Hsafe as [Hs Hrest].
    destruct (Hx Hs) as [_ ->]. now rewrite IHl.
  - split; [discriminate|]. f_equal.
    apply andb_true_iff in Hsafe as [Hkeys Hall].
    rewrite (members_of_safe _ IH Hall).
    now rewrite (build_of_safe _ IH Hall Hkeys []).
Qed.

Lemma stringify_safe v :
  jsonSafe v = true -> stringify v = Some (element (stringify v)).
Proof.
  intros H. destruct (parse_stringify v H) as [Hne _].
  destruct (stringify v); [reflexivity|congruence].
Qed.

Lemma toUint8_ofByte b : toUint8 (ofByte b) = b.
Proof. destruct b; vm_compute; reflexivity. Qed.

Lemma bytes_back bs : List.map toUint8 (List.map ofByte bs) = bs.
Proof.
  induction bs as [|b bs IH]; [reflexivity|].
  cbn [List.map]. now rewrite toUint8_ofByte, IH.
Qed.

Lemma bytes_safe bs : List.forallb jsonSafe (List.map ofByte bs) = true.
Proof. induction bs as [|b bs IH]; simpl; [reflexivity|assumption]. Qed.

Lemma truthy_ofZ z : truthy (ofZ z) = negb (z =? 0).
Proof.
  unfold ofZ, truthy, isZero, Qeq_bool, inject_Z. simpl.
  rewrite Z.mul_1_r. reflexivity.
Qed.

Lemma truthy_Str s : truthy (Str s) = negb (String.eqb s EmptyString).
Proof. reflexivity. Qed.

End JSFacts.

(** ** Protocol: construction, wire form, validation *)
Module ProtocolFacts.
Import JS Protocol.

Lemma present_wireSafe m : presentPerDataModel m = true -> wireSafe m = true.
Proof.
  unfold presentPerDataModel, wireSafe.
  destruct (type m), (fields m) as [|[t|]| | |[f|]|[g|]|[h|]];
    try discriminate; simpl; intros H; try reflexivity;
    try (apply andb_true_iff in H as [_ _]; reflexivity);
    try (rewrite H; reflexivity).
  - induction seenBy as [|x l IH]; simpl; [reflexivity|assumption].
Qed.

(** The wire form gives the object of the record back. *)
Lemma deserialize_serialize m :
  wireSafe m = true -> deserializeMessage (serializeMessage m) = Return (toJS m).
Proof.
  intros Hsafe. unfold deserializeMessage, serializeMessage.
  set (serialized := setProp (toJS m) "resonanceKey" _).
  assert (Hs : jsonSafe serialized = true).
  { subst serialized. unfold wireSafe in Hsafe. unfold toJS.
    destruct (fields m); simpl in *;
      rewrite ?JSFacts.bytes_safe; simpl; try reflexivity; assumption. }
  destruct (JSFacts.parse_stringify serialized Hs) as [Hne Hback].
  destruct (stringify serialized) as [j|]; [|congruence].
  simpl in Hback. rewrite Hback.
  subst serialized. unfold toJS. simpl.
  unfold newUint8Array. now rewrite JSFacts.bytes_back.
Qed.

Section Validation.
Context {platform : Platform}.

Lemma get_type m : getProp (toJS m) "type" = Str (typeString (type m)).
Proof. reflexivity. Qed.
Lemma get_senderId m : getProp (toJS m) "senderId" = Str (senderId m).
Proof. reflexivity. Qed.
Lemma get_resonanceKey m : getProp (toJS m) "resonanceKey" = Bytes (resonanceKey m).
Proof. reflexivity. Qed.
Lemma get_whisperTag m : getProp (toJS m) "whisperTag" = Str (whisperTag m).
Proof. reflexivity. Qed.
Lemma get_payload m : getProp (toJS m) "payload" = Str (payload m).
Proof. reflexivity. Qed.
Lemma get_timestamp m : getProp (toJS m) "timestamp" = ofZ (timestamp m).
Proof. reflexivity. Qed.
Lemma get_version m : getProp (toJS m) "version" = Str (version m).
Proof. reflexivity. Qed.
Lemma get_ttl m : getProp (toJS m) "ttl" = ofZ (ttl m).
Proof. reflexivity. Qed.
Lemma get_nonce m : getProp (toJS m) "nonce" = Str (nonce m).
Proof. reflexivity. Qed.

(** A property of the kind is read from the fields of the kind. *)
Lemma get_kind m k :
  List.existsb (String.eqb k)
    ["targetId"; "maxHops"; "currentHops"; "seenBy"; "intent"; "strength"] = true ->
  getProp (toJS m) k = getProp (Obj (kindProps (fields m))) k.
Proof.
  simpl. intros H.
  repeat (apply orb_true_iff in H as [H|H];
          [apply String.eqb_eq in H; subst k; reflexivity|]).
  discriminate.
Qed.

Lemma isNumber_ofZ z : isNumber (ofZ z) = true.
Proof. reflexivity. Qed.

Lemma negative_ofZ z : negative (ofZ z) = (z <? 0).
Proof.
  unfold negative, ofZ, Qltb, Qle_bool, inject_Z. simpl.
  rewrite Z.mul_1_r.
  destruct (Z.leb_spec 0 z), (Z.ltb_spec z 0); simpl; try reflexivity; lia.
Qed.

Lemma olderThanTtl_ofZ now t l :
  olderThanTtl now (ofZ t) (ofZ l) = (l <? now - t).
Proof.
  unfold olderThanTtl, asNumber, ofZ, Qltb, Qle_bool, Qminus, Qplus, Qopp, inject_Z.
  simpl. rewrite !Z.mul_1_r.
  destruct (Z.leb_spec (now + - t) l), (Z.ltb_spec l (now - t)); simpl;
    try reflexivity; lia.
Qed.

Lemma isMessageType_typeString t : isMessageType (Str (typeString t)) = true.
Proof. destruct t; reflexivity. Qed.

Lemma truthy_typeString t : truthy (Str (typeString t)) = true.
Proof. destruct t; reflexivity. Qed.

Lemma isType_typeString t u : isType (Str (typeString t)) u = sameType t u.
Proof. reflexivity. Qed.

(** What [validateMessage] computes on the object of a typed record. *)
Lemma validate_typed now m :
  exists warnings,
    validateMessage now (toJS m)
    = Return {| isValid := Nat.eqb (List.length (typedErrors now m)) 0;
                errors := typedErrors now m;
                warnings := warnings |}.
Proof.
  unfold validateMessage.
  destruct (toJS m) as [| |b|q|s|l|props|bs] eqn:E; try discriminate E.
  rewrite <- E. cbv zeta.
  rewrite get_type, get_senderId, get_resonanceKey, get_whisperTag, get_payload,
    get_timestamp, get_version, get_ttl, get_nonce.
  rewrite !(get_kind m) by reflexivity.
  rewrite truthy_typeString, isMessageType_typeString, !JSFacts.truthy_ofZ,
    !isNumber_ofZ, negative_ofZ, olderThanTtl_ofZ, !isType_typeString,
    !JSFacts.truthy_Str.
  fold (nonEmpty (senderId m)) (nonEmpty (whisperTag m)) (nonEmpty (payload m))
    (nonEmpty (version m)) (nonEmpty (nonce m)).
  fold (kindProp m "targetId") (kindProp m "maxHops") (kindProp m "currentHops")
    (kindProp m "seenBy") (kindProp m "intent") (kindProp m "strength").
  rewrite !negb_involutive. simpl (negb true). simpl (false || _).
  rewrite !andb_false_r.
  eexists. reflexivity.
Qed.

Lemma nonEmpty_true s : nonEmpty s = true -> s <> EmptyString.
Proof. intros H ->. discriminate H. Qed.

(** A record with its fields present, truthy and fresh has no error. *)
Lemma typedErrors_none now m :
  presentPerDataModel m = true -> requiredTruthy m = true -> fresh now m = true ->
  typedErrors now m = [].
Proof.
  unfold requiredTruthy, fresh, typedErrors, kindProp. intros Hp Ht Hf.
  repeat (apply andb_true_iff in Ht as [Ht ?]).
  repeat match goal with
         | [ H : nonEmpty _ = true |- _ ] => rewrite H; clear H
         | [ H : negb (_ =? _) = true |- _ ] =>
             apply negb_true_iff in H; rewrite H; clear H
         end.
  assert (Hpos : 0 < ttl m) by (now apply Z.ltb_lt).
  apply Z.leb_le in Hf.
  replace (ttl m =? 0) with false by (symmetry; apply Z.eqb_neq; lia).
  replace (ttl m <? 0) with false by (symmetry; apply Z.ltb_ge; lia).
  replace (ttl m <? now - timestamp m) with false
    by (symmetry; apply Z.ltb_ge; lia).
  unfold presentPerDataModel in Hp.
  destruct (type m), (fields m) as [|[t|]| | |[f|]|[g|]|[h|]];
    try discriminate Hp; try reflexivity.
  - change (getProp (Obj (kindProps (WhisperFields (Some t)))) "targetId")
      with (Str t).
    rewrite JSFacts.truthy_Str. fold (nonEmpty t).
    match goal with [ H : nonEmpty t = true |- _ ] => now rewrite H end.
  - apply andb_true_iff in Hp as [Hm Hc].
    apply Z.leb_le in Hm, Hc.
    change (getProp (Obj (kindProps (BroadcastFields maxHops currentHops seenBy)))
              "maxHops") with (ofZ maxHops).
    change (getProp (Obj (kindProps (BroadcastFields maxHops currentHops seenBy)))
              "currentHops") with (ofZ currentHops).
    rewrite !negative_ofZ.
    replace (maxHops <? 0) with false by (symmetry; apply Z.ltb_ge; lia).
    replace (currentHops <? 0) with false by (symmetry; apply Z.ltb_ge; lia).
    reflexivity.
  - apply andb_true_iff in Hp as [Hlo Hhi].
    change (getProp (Obj (kindProps (ResonanceFields intent strength))) "intent")
      with (Str intent).
    change (getProp (Obj (kindProps (ResonanceFields intent strength))) "strength")
      with (Num strength).
    rewrite JSFacts.truthy_Str. fold (nonEmpty intent).
    match goal with [ H : nonEmpty intent = true |- _ ] => rewrite H end.
    unfold negative, aboveOne, Qltb. now rewrite Hlo, Hhi.
Qed.

(** An empty payload, a zero TTL or a zero timestamp is reported as missing. *)
Lemma missing_field_rejected now m :
  payload m = EmptyString \/ ttl m = 0 \/ timestamp m = 0 ->
  exists r,
    validateMessage now (toJS m) = Return r
    /\ isValid r = false
    /\ (payload m = EmptyString -> In "Missing payload" (errors r))
    /\ (ttl m = 0 -> In "Missing TTL" (errors r))
    /\ (timestamp m = 0 -> In "Missing timestamp" (errors r)).
Proof.
  intros H. destruct (validate_typed now m) as [ws ->].
  eexists. split; [reflexivity|]. simpl.
  assert (Hp : payload m = EmptyString -> In "Missing payload" (typedErrors now m)).
  { intros E. unfold typedErrors. rewrite E.
    change (pushIf (negb (nonEmpty EmptyString)) "Missing payload")
      with ["Missing payload"].
    rewrite !in_app_iff. simpl. tauto. }
  assert (Hl : ttl m = 0 -> In "Missing TTL" (typedErrors now m)).
  { intros E. unfold typedErrors. rewrite E.
    change (pushIf (0 =? 0) "Missing TTL") with ["Missing TTL"].
    rewrite !in_app_iff. simpl. tauto. }
  assert (Ht : timestamp m = 0 -> In "Missing timestamp" (typedErrors now m)).
  { intros E. unfold typedErrors. rewrite E.
    change (pushIf (0 =? 0) "Missing timestamp") with ["Missing timestamp"].
    rewrite !in_app_iff. simpl. tauto. }
  repeat split; try assumption.
  destruct (typedErrors now m) as [|e l]; [|reflexivity].
  destruct H as [H|[H|H]]; [destruct (Hp H)|destruct (Hl H)|destruct (Ht H)].
Qed.



End Validation.



End ProtocolFacts.

(** ** The connection manager *)
Module NodeFacts.
Import Node.

Lemma btoa_nonempty bytes : bytes <> [] -> btoa bytes <> EmptyString.
Proof.
  destruct bytes as [|a [|b [|c rest]]]; [congruence| | |]; intros _; discriminate.
Qed.

Section WithPlatform.
Context {platform : Platform}.

Lemma getRandomValues_length k len :
  List.length (getRandomValues k len) = len.
Proof.
  unfold getRandomValues.
  rewrite List.length_firstn, List.length_app, List.repeat_length. lia.
Qed.

(** A successful encryption returns a payload that is not empty and leaves
    the identity and the outbox of the node alone. *)
Lemma encryptMessage_some n text key enc n1 :
  encryptMessage n text key = (Some enc, n1) ->
  enc <> EmptyString /\ thisNodeId n1 = thisNodeId n /\ sent n1 = sent n.
Proof.
  unfold encryptMessage.
  destruct (ecdhDeriveBits _ _) as [secret|]; [|discriminate].
  destruct (aesGcmEncrypt _ _ _) as [encrypted|]; [|discriminate].
  intros [= <- <-]. split; [|split; reflexivity].
  apply btoa_nonempty.
  pose proof (getRandomValues_length (draws n) 12) as Hlen.
  destruct (getRandomValues (draws n) 12); [discriminate Hlen|discriminate].
Qed.

(** What an accepted [sendMessage] did. *)
Lemma sendMessage_accepted n peerId m m' n' :
  sendMessage n peerId m = (true, m', n') ->
  Protocol.payload m' <> EmptyString
  /\ m' = Protocol.withPayload m (Protocol.payload m')
  /\ sent n' = sent n
               ++ [(peerId,
                    RelayMessage (thisNodeId n) peerId (Protocol.serializeMessage m'))].
Proof.
  unfold sendMessage.
  destruct (OMap.get peerId (peers n)) as [peer|]; [|discriminate].
  destruct (connections n !! peerId) as [connection|]; [|discriminate].
  destruct (negb (canSend (state peer))); [discriminate|].
  destruct (encryptMessage n (Protocol.payload m) (publicKey peer))
    as [[enc|] n1] eqn:Henc; [|discriminate].
  destruct (encryptMessage_some _ _ _ _ _ Henc) as (Hne & Hid & Hsent).
  destruct connection as [|[|]]; try discriminate.
  intros [= <- <-]. simpl. rewrite Hid, Hsent. repeat split. exact Hne.
Qed.

Lemma in_pushIf x c msg : In x (Protocol.pushIf c msg) -> c = true /\ x = msg.
Proof.
  destruct c; simpl; [|tauto]. intros [<-|[]]. split; reflexivity.
Qed.

(** A record with a payload is never reported as lacking one. *)
Lemma payload_not_missing now m :
  Protocol.payload m <> EmptyString ->
  ~ In "Missing payload" (Protocol.typedErrors now m).
Proof.
  intros Hne Hin. unfold Protocol.typedErrors in Hin.
  repeat match goal with
         | [ H : In _ (_ ++ _) |- _ ] => apply in_app_or in H as [H|H]
         | [ H : In _ (Protocol.pushIf _ _) |- _ ] =>
             apply in_pushIf in H as [? H]; try discriminate H
         | [ H : In _ (if ?c then _ else _) |- _ ] => destruct c
         | [ H : In _ [] |- _ ] => destruct H
         end.
  match goal with
  | [ H : negb (Protocol.nonEmpty _) = true |- _ ] =>
      apply negb_true_iff in H; unfold Protocol.nonEmpty in H;
      apply negb_false_iff, String.eqb_eq in H; contradiction
  end.
Qed.

Lemma whisperTag_nonEmpty intent :
  sha256 (Entropy.encode intent) <> [] ->
  Protocol.nonEmpty (Entropy.generateWhisperTag intent None) = true.
Proof.
  intros Hsha. unfold Entropy.generateWhisperTag.
  destruct (sha256 (Entropy.encode intent)) as [|b bs]; [congruence|].
  cbn [List.firstn]. rewrite EntropyFacts.bytesToHex_cons.
  destruct (EntropyFacts.byte_hex b) as [Hl _].
  destruct (Entropy.padStart _ 2 "0") as [|c s]; [discriminate Hl|reflexivity].
Qed.

(** C5, amended.  [handleDisconnection], which the close and error handlers
    of a data channel and a failed heartbeat call, keeps the record of the
    peer in the peer table and marks it [DISCONNECTED]; it removes the
    connection handle and the heartbeat timer of the peer, emits the
    [disconnected] event and leaves every other record alone.  The peer is
    no longer among the connected peers a message can be sent to. *)
Theorem handleDisconnection_keeps_record (n : WhispurrNode)
  (peerId reason : string) (m : Protocol.Message) :
  let n' := handleDisconnection n peerId reason in
  OMap.get peerId (peers n')
  = option_map (fun peer => withState peer DISCONNECTED) (OMap.get peerId (peers n))
  /\ OMap.has peerId (peers n') = OMap.has peerId (peers n)
  /\ (forall other, other <> peerId ->
      OMap.get other (peers n') = OMap.get other (peers n))
  /\ (connections n' !! peerId) = None
  /\ (peerId ∉ heartbeatTimers n')
  /\ emitted n' = emitted n ++ [Disconnected peerId reason]
  /\ sendMessage n' peerId m = (false, m, n')
  /\ dataChannelClose n peerId = handleDisconnection n peerId "Data channel closed"
  /\ dataChannelError n peerId = handleDisconnection n peerId "Data channel error".
Proof.
  cbv zeta.
  assert (Hget : OMap.get peerId (peers (handleDisconnection n peerId reason))
                 = option_map (fun peer => withState peer DISCONNECTED)
                     (OMap.get peerId (peers n))).
  { unfold handleDisconnection.
    destruct (OMap.get peerId (peers n)) as [peer|] eqn:E; simpl.
    - apply OMapFacts.get_set_same.
    - exact E. }
  assert (Hconn : connections (handleDisconnection n peerId reason) !! peerId = None).
  { unfold handleDisconnection.
    destruct (OMap.get peerId (peers n)); simpl; apply lookup_delete_eq. }
  split; [exact Hget|].
  split; [unfold OMap.has; rewrite Hget; now destruct (OMap.get peerId (peers n))|].
  split.
  { intros other Hne. unfold handleDisconnection.
    destruct (OMap.get peerId (peers n)) as [peer|]; simpl; [|reflexivity].
    apply OMapFacts.get_set_other. congruence. }
  split; [exact Hconn|].
  split.
  { unfold handleDisconnection.
    destruct (OMap.get peerId (peers n)); simpl;
      apply not_elem_of_difference; right; now apply elem_of_singleton. }
  split.
  { unfold handleDisconnection.
    destruct (OMap.get peerId (peers n)); reflexivity. }
  split; [|split; reflexivity].
  unfold sendMessage. rewrite Hconn.
  now destruct (OMap.get peerId (peers (handleDisconnection n peerId reason))).
Qed.

(** A Ping or Pong that went out through [sendMessage] passes the gate of a
    receiver that knows the sender, while it is fresh. *)
Lemma heartbeat_accepted (kind : Protocol.MessageType) (sender receiver : WhispurrNode)
  (peerId from uuid : string) (options : Protocol.MessageOptions) (now now' : Z)
  (m' : Protocol.Message) (sender' : WhispurrNode) (peer : PeerInfo) :
  kind = Protocol.PING \/ kind = Protocol.PONG ->
  Protocol.opt_intent options = None ->
  Protocol.opt_whisperTag options = None ->
  Protocol.opt_ttl options = Some 10000 ->
  thisNodeId sender <> EmptyString -> uuid <> EmptyString -> now <> 0 ->
  sha256 (Entropy.encode "default") <> [] ->
  sendMessage sender peerId
    (Protocol.createMessage kind (thisNodeId sender) "" options now uuid)
  = (true, m', sender') ->
  OMap.get from (peers receiver) = Some peer ->
  now' - now <= 10000 ->
  acceptMessage receiver (Protocol.serializeMessage m') from now'
  = Some (Protocol.toJS m', peer).
Proof.
  intros Hkind Hi Hw Httl Hid Huuid Hnow Hsha Hsend Hpeer Hage.
  destruct (sendMessage_accepted _ _ _ _ _ Hsend) as (Hne & Hm' & _).
  assert (Hp : Protocol.presentPerDataModel m' = true).
  { rewrite Hm'. destruct Hkind as [-> | ->]; reflexivity. }
  assert (Ht : Protocol.requiredTruthy m' = true).
  { rewrite Hm'. destruct options; simpl in Hi, Hw, Httl; subst.
    pose proof (whisperTag_nonEmpty "default" Hsha) as Htag.
    assert (Hs : Protocol.nonEmpty (thisNodeId sender) = true)
      by (unfold Protocol.nonEmpty; now destruct (String.eqb_spec (thisNodeId sender) EmptyString)).
    assert (Hu : Protocol.nonEmpty uuid = true)
      by (unfold Protocol.nonEmpty; now destruct (String.eqb_spec uuid EmptyString)).
    assert (Hpl : Protocol.nonEmpty (Protocol.payload m') = true)
      by (unfold Protocol.nonEmpty;
          now destruct (String.eqb_spec (Protocol.payload m') EmptyString)).
    assert (Hn : negb (now =? 0) = true)
      by (now destruct (Z.eqb_spec now 0)).
    unfold Protocol.requiredTruthy.
    destruct Hkind as [-> | ->];
      cbn [Protocol.senderId Protocol.whisperTag Protocol.payload
           Protocol.timestamp Protocol.version Protocol.ttl Protocol.nonce
           Protocol.fields Protocol.withPayload Protocol.withFields
           Protocol.createMessage Protocol.orString Protocol.orZ
           Protocol.opt_intent Protocol.opt_whisperTag Protocol.opt_ttl];
      rewrite Hs, Htag, Hpl, Hn, Hu; reflexivity. }
  assert (Hfresh : Protocol.fresh now' m' = true).
  { rewrite Hm'. unfold Protocol.fresh.
    destruct Hkind as [-> | ->]; simpl; rewrite Httl; simpl;
      apply Z.leb_le; lia. }
  unfold acceptMessage.
  rewrite (ProtocolFacts.deserialize_serialize m' (ProtocolFacts.present_wireSafe m' Hp)).
  rewrite Hpeer.
  destruct (ProtocolFacts.validate_typed now' m') as [ws ->]. simpl.
  now rewrite (ProtocolFacts.typedErrors_none now' m' Hp Ht Hfresh).
Qed.

(** C10, amended.  [validateMessage] rejects every record whose payload is
    the empty string, whose TTL is 0 or whose timestamp is 0, and reports
    the field as missing; so a Ping or Pong validated as [createMessage]
    returns it, with its empty payload, is rejected.  On the wire the
    payload is never empty: [sendMessage] replaces it by the base-64 text of
    the encryption envelope before it serializes, so a message that went out
    is not reported as lacking a payload, and a heartbeat Ping or Pong that
    arrives within its ten seconds passes the validation gate of the
    receiver. *)
Theorem empty_payload_rejected_unless_sent :
  (forall now m,
     Protocol.payload m = EmptyString \/ Protocol.ttl m = 0
     \/ Protocol.timestamp m = 0 ->
     exists r,
       Protocol.validateMessage now (Protocol.toJS m) = Return r
       /\ Protocol.isValid r = false
       /\ (Protocol.payload m = EmptyString ->
           In "Missing payload" (Protocol.errors r))
       /\ (Protocol.ttl m = 0 -> In "Missing TTL" (Protocol.errors r))
       /\ (Protocol.timestamp m = 0 ->
           In "Missing timestamp" (Protocol.errors r)))
  /\ (forall kind sender options now uuid now',
        exists r,
          Protocol.validateMessage now'
            (Protocol.toJS (Protocol.createMessage kind sender "" options now uuid))
          = Return r
          /\ Protocol.isValid r = false
          /\ In "Missing payload" (Protocol.errors r))
  /\ (forall n peerId m m' n' now,
        sendMessage n peerId m = (true, m', n') ->
        Protocol.payload m' <> EmptyString
        /\ sent n' = sent n
                     ++ [(peerId,
                          RelayMessage (thisNodeId n) peerId
                            (Protocol.serializeMessage m'))]
        /\ exists r,
             Protocol.validateMessage now (Protocol.toJS m') = Return r
             /\ ~ In "Missing payload" (Protocol.errors r))
  /\ (forall kind sender receiver peerId from uuid options now now' m' sender' peer,
        kind = Protocol.PING \/ kind = Protocol.PONG ->
        Protocol.opt_intent options = None ->
        Protocol.opt_whisperTag options = None ->
        Protocol.opt_ttl options = Some 10000 ->
        thisNodeId sender <> EmptyString -> uuid <> EmptyString -> now <> 0 ->
        sha256 (Entropy.encode "default") <> [] ->
        sendMessage sender peerId
          (Protocol.createMessage kind (thisNodeId sender) "" options now uuid)
        = (true, m', sender') ->
        OMap.get from (peers receiver) = Some peer ->
        now' - now <= 10000 ->
        acceptMessage receiver (Protocol.serializeMessage m') from now'
        = Some (Protocol.toJS m', peer)).
Proof.
  split; [exact ProtocolFacts.missing_field_rejected|].
  split.
  { intros kind sender options now uuid now'.
    destruct (ProtocolFacts.missing_field_rejected now'
                (Protocol.createMessage kind sender "" options now uuid))
      as (r & Hr & Hinvalid & Hpayload & _).
    - left. destruct kind; reflexivity.
    - exists r. repeat split; try assumption.
      apply Hpayload. destruct kind; reflexivity. }
  split.
  { intros n peerId m m' n' now Hsend.
    destruct (sendMessage_accepted _ _ _ _ _ Hsend) as (Hne & _ & Hsent).
    split; [exact Hne|]. split; [exact Hsent|].
    destruct (ProtocolFacts.validate_typed now m') as [ws Hv].
    eexists. split; [exact Hv|]. simpl. now apply payload_not_missing. }
  intros. eapply heartbeat_accepted; eassumption.
Qed.

End WithPlatform.

(** C5 as stated fails: after the error handler of the data channel has run
    and the [disconnected] event is out, the record of the peer is still in
    the peer table, in state [DISCONNECTED]. *)
Lemma record_survives_transport_error :
  let n' := dataChannelError Samples.senderNode Samples.nodeB in
  List.last (emitted n') (ErrorEvent EmptyString None)
  = Disconnected Samples.nodeB "Data channel error"
  /\ OMap.has Samples.nodeB (peers Samples.senderNode) = true
  /\ OMap.has Samples.nodeB (peers n') = true
  /\ option_map state (OMap.get Samples.nodeB (peers n')) = Some DISCONNECTED.
Proof. vm_compute. repeat split; reflexivity. Qed.

Lemma handleDisconnection_keeps_record_witness :
  OMap.get Samples.nodeB
    (peers (handleDisconnection Samples.senderNode Samples.nodeB "Data channel error"))
  = option_map (fun peer => withState peer DISCONNECTED)
      (OMap.get Samples.nodeB (peers Samples.senderNode)).
Proof.
  exact (proj1 (@handleDisconnection_keeps_record samplePlatform
                  Samples.senderNode Samples.nodeB "Data channel error"
                  Samples.pingRecord)).
Defined.

Lemma empty_payload_rejected_unless_sent_witness :
  exists peer,
    OMap.get Samples.nodeA (peers Samples.receiverNode) = Some peer
    /\ @acceptMessage samplePlatform Samples.receiverNode
         (Protocol.serializeMessage (snd (fst Samples.pingSent)))
         Samples.nodeA (Samples.clock + 50)
       = Some (Protocol.toJS (snd (fst Samples.pingSent)), peer).
Proof.
  eexists. split; [vm_compute; reflexivity|].
  apply (proj2 (proj2 (proj2 (@empty_payload_rejected_unless_sent samplePlatform)))
           Protocol.PING Samples.senderNode Samples.receiverNode Samples.nodeB
           Samples.nodeA Samples.pingNonce Samples.heartbeatOptions Samples.clock
           (Samples.clock + 50) (snd (fst Samples.pingSent))
           (snd Samples.pingSent)).
  - left. reflexivity.
  - reflexivity.
  - reflexivity.
  - reflexivity.
  - discriminate.
  - discriminate.
  - discriminate.
  - discriminate.
  - vm_compute. reflexivity.
  - vm_compute. reflexivity.
  - vm_compute. discriminate.
Defined.

(** C10 as stated fails in its second half: the Ping of a heartbeat, built
    with an empty payload, goes out with the encryption envelope as its
    payload, and the validation gate of the receiver lets it through. *)
Lemma heartbeat_ping_passes_validation :
  Protocol.payload Samples.pingRecord = EmptyString
  /\ exists wire v peer r,
       Samples.lastPayload
         (@heartbeatTick samplePlatform Samples.senderNode Samples.nodeB
            Samples.clock Samples.pingNonce) = Some wire
       /\ @acceptMessage samplePlatform Samples.receiverNode wire Samples.nodeA
            (Samples.clock + 50) = Some (v, peer)
       /\ JS.getProp v "type" = JS.Str "ping"
       /\ @Protocol.validateMessage samplePlatform (Samples.clock + 50) v = Return r
       /\ Protocol.isValid r = true.
Proof.
  split; [reflexivity|].
  eexists. eexists. eexists. eexists.
  split; [vm_compute; reflexivity|].
  split; [vm_compute; reflexivity|].
  split; [vm_compute; reflexivity|].
  split; [vm_compute; reflexivity|reflexivity].
Qed.

End NodeFacts.

(** ** The orchestrator *)
Module WhispurrFacts.
Import Whispurr.


Section WithPlatform.
Context {platform : Platform}.

Lemma sendMessage_nodeId n peerId m :
  Node.thisNodeId (snd (Node.sendMessage n peerId m)) = Node.thisNodeId n.
Proof.
  unfold Node.sendMessage.
  destruct (OMap.get peerId (Node.peers n)) as [peer|]; [|reflexivity].
  destruct (Node.connections n !! peerId) as [connection|]; [|reflexivity].
  destruct (negb (Node.canSend (Node.state peer))); [reflexivity|].
  unfold Node.encryptMessage.
  destruct (ecdhDeriveBits _ _); [|reflexivity].
  destruct (aesGcmEncrypt _ _ _); [|reflexivity].
  destruct connection as [|[|]]; reflexivity.
Qed.

Lemma sameTables_refl w : sameTables w w.
Proof. repeat split. Qed.

Lemma sameTables_trans w1 w2 w3 :
  sameTables w1 w2 -> sameTables w2 w3 -> sameTables w1 w3.
Proof.
  intros (A1 & A2 & A3 & A4 & A5) (B1 & B2 & B3 & B4 & B5).
  repeat split; congruence.
Qed.

Lemma payloadApart_refl m : Protocol.payloadApart m m.
Proof. destruct m; reflexivity. Qed.

Lemma payloadApart_trans m1 m2 m3 :
  Protocol.payloadApart m1 m2 -> Protocol.payloadApart m2 m3 ->
  Protocol.payloadApart m1 m3.
Proof.
  unfold Protocol.payloadApart. intros H12 H23. rewrite H23 at 1. rewrite H12.
  reflexivity.
Qed.


Lemma sendMessage_message n peerId m :
  Protocol.payloadApart m (snd (fst (Node.sendMessage n peerId m))).
Proof.
  unfold Node.sendMessage.
  destruct (OMap.get peerId (Node.peers n)) as [peer|];
    [|apply payloadApart_refl].
  destruct (Node.connections n !! peerId) as [connection|];
    [|apply payloadApart_refl].
  destruct (negb (Node.canSend (Node.state peer))); [apply payloadApart_refl|].
  destruct (Node.encryptMessage n (Protocol.payload m) (Node.publicKey peer))
    as [[enc|] n1]; [|apply payloadApart_refl].
  destruct connection as [|[|]]; reflexivity.
Qed.

Lemma gossipTo_same targets : forall w m,
  sameTables w (fst (gossipTo targets w m))
  /\ Protocol.payloadApart m (snd (gossipTo targets w m)).
Proof.
  induction targets as [|peer rest IH]; intros w m; simpl;
    [split; [apply sameTables_refl|apply payloadApart_refl]|].
  pose proof (sendMessage_nodeId (node w) (Node.nodeId peer) m) as Hid.
  pose proof (sendMessage_message (node w) (Node.nodeId peer) m) as Hm.
  destruct (Node.sendMessage (node w) (Node.nodeId peer) m) as [[success m'] n].
  cbn [fst snd] in Hid, Hm.
  match goal with
  | [ |- sameTables _ (fst (gossipTo rest ?w1 m')) /\ _ ] =>
      destruct (IH w1 m') as [Hs Hp]; assert (H1 : sameTables w w1)
  end.
  { destruct success; repeat split; exact Hid. }
  split; [exact (sameTables_trans _ _ _ H1 Hs)|].
  exact (payloadApart_trans _ _ _ Hm Hp).
Qed.

Lemma gossipAll_same messages peers : forall w,
  sameTables w (fst (gossipAll messages peers w))
  /\ Forall2 Protocol.payloadApart messages (snd (gossipAll messages peers w)).
Proof.
  induction messages as [|m rest IH]; intros w; simpl;
    [split; [apply sameTables_refl|constructor]|].
  match goal with
  | [ |- context [gossipTo ?t ?w1 m] ] =>
      destruct (gossipTo_same t w1 m) as [Hs Hp];
      assert (H1 : sameTables w w1) by (repeat split);
      destruct (gossipTo t w1 m) as [w2 m2]
  end.
  cbn [fst snd] in Hs, Hp.
  destruct (IH w2) as [Hs' Hp'].
  destruct (gossipAll rest peers w2) as [w3 processed]. cbn [fst snd] in *.
  split.
  - exact (sameTables_trans _ _ _ H1 (sameTables_trans _ _ _ Hs Hs')).
  - now constructor.
Qed.

(** A pass over the queue leaves the tables alone and gives back the
    messages it took from the head of the queue, payload apart. *)
Lemma processGossipQueue_same w :
  sameTables w (fst (processGossipQueue w))
  /\ exists k,
       Forall2 Protocol.payloadApart (List.firstn k (gossipQueue w))
         (snd (processGossipQueue w)).
Proof.
  unfold processGossipQueue.
  destruct (gossipQueue w) as [|m q] eqn:Hq;
    [split; [apply sameTables_refl|exists O; constructor]|].
  destruct (Node.getConnectedPeers (node w)) as [|p ps];
    [split; [apply sameTables_refl|exists O; constructor]|].
  match goal with
  | [ |- context [gossipAll ?ms ?cs ?w1] ] =>
      destruct (gossipAll_same ms cs w1) as [Hs Hp]
  end.
  split.
  - eapply sameTables_trans; [|exact Hs]. repeat split.
  - eexists. exact Hp.
Qed.



Lemma handleGossipMessage_same w m peer :
  sameTables w (fst (handleGossipMessage w m peer)).
Proof.
  unfold handleGossipMessage.
  destruct (Protocol.fields m) as [| |mh ch sb| | | |]; try apply sameTables_refl.
  destruct (mh <=? ch); [apply sameTables_refl|].
  destruct (includes sb (getNodeId w)); [apply sameTables_refl|].
  match goal with
  | [ |- context [processGossipQueue ?w1] ] =>
      destruct (processGossipQueue_same w1) as [Hs _];
      destruct (processGossipQueue w1) as [w2 processed]
  end.
  cbn [fst snd] in *. eapply sameTables_trans; [|exact Hs]. repeat split.
Qed.





(** The event path drops a record whose key is in the history. *)
Lemma duplicate_event_dropped w m peer now t :
  messageHistory w !! messageId m = Some t ->
  handleIncomingMessage w m peer now = (w, m).
Proof.
  intros H. unfold handleIncomingMessage.
  destruct (Protocol.isMessageExpired now m); [reflexivity|]. now rewrite H.
Qed.

(** The sweep keeps an entry that is not older than the message TTL. *)
Lemma cleanup_keeps w now key t :
  messageHistory w !! key = Some t ->
  now - messageTTL (gossip w) <= t ->
  messageHistory (cleanupMessageHistory w now) !! key = Some t.
Proof.
  intros H Hage. unfold cleanupMessageHistory. simpl.
  apply map_lookup_filter_Some. split; [assumption|]. simpl. lia.
Qed.

(** Whatever the event path does with a record, an entry of the history
    that is within the message TTL stays. *)
Lemma history_kept w m peer now key t :
  messageHistory w !! key = Some t ->
  now - messageTTL (gossip w) <= t ->
  messageHistory (fst (handleIncomingMessage w m peer now)) !! key = Some t.
Proof.
  intros H Hage. unfold handleIncomingMessage.
  destruct (Protocol.isMessageExpired now m); [assumption|].
  destruct (messageHistory w !! messageId m) eqn:Hnew; [assumption|].
  set (w1 := cleanupMessageHistory _ now).
  assert (H1 : messageHistory w1 !! key = Some t).
  { apply cleanup_keeps; [|assumption]. simpl.
    rewrite lookup_insert_ne; [assumption|]. intros E. congruence. }
  destruct (Protocol.type m);
    try (unfold routeMessageToExtensions; simpl; exact H1).
  - destruct (handleGossipMessage_same w1 m peer) as (_ & -> & _). exact H1.
  - unfold handleResonanceMessage.
    destruct (Protocol.fields m) as [| | |i s| | |]; try exact H1.
    destruct (checkResonance i s); exact H1.
Qed.

(** A record that the event path took in is in the history afterwards. *)
Lemma history_recorded w m peer now :
  0 <= messageTTL (gossip w) ->
  Protocol.isMessageExpired now m = false ->
  messageHistory w !! messageId m = None ->
  messageHistory (fst (handleIncomingMessage w m peer now)) !! messageId m
  = Some now.
Proof.
  intros Httl Hfresh Hnew. unfold handleIncomingMessage. rewrite Hfresh, Hnew.
  set (w1 := cleanupMessageHistory _ now).
  assert (H1 : messageHistory w1 !! messageId m = Some now).
  { apply cleanup_keeps; simpl; [apply lookup_insert_eq|lia]. }
  destruct (Protocol.type m);
    try (unfold routeMessageToExtensions; simpl; exact H1).
  - destruct (handleGossipMessage_same w1 m peer) as (_ & -> & _). exact H1.
  - unfold handleResonanceMessage.
    destruct (Protocol.fields m) as [| | |i s| | |]; try exact H1.
    destruct (checkResonance i s); exact H1.
Qed.

(** The record [resonate] builds has strength 1, whatever the argument. *)
Lemma resonanceRecord_strength w intent strength now uuid :
  Protocol.fields (resonanceRecord w intent strength now uuid)
  = Protocol.ResonanceFields (Protocol.orString (Some intent) "default") 1.
Proof. reflexivity. Qed.

End WithPlatform.


(** C2, the code at the failing input.  A whisper reaches the orchestrator
    of B twice within the message TTL.  The first delivery calls the handler
    of the extension twice, once from the event path and once from the
    handler registered with the node; the second delivery is dropped by the
    dedup check of the event path and still calls the handler from the
    registered one: three calls for one (sender, nonce). *)
Theorem duplicate_whisper_dispatched_again :
  (Samples.clock + 20) - (Samples.clock + 10)
  <= messageTTL (gossip Samples.orchestratorB)
  /\ Samples.dedupKeys (fst Samples.firstDelivery)
     = [("watcher", Samples.nodeA, "6f1c2a34-0000-4000-8000-000000000001");
        ("watcher", Samples.nodeA, "6f1c2a34-0000-4000-8000-000000000001")]
  /\ Samples.dedupKeys (fst Samples.secondDelivery)
     = [("watcher", Samples.nodeA, "6f1c2a34-0000-4000-8000-000000000001");
        ("watcher", Samples.nodeA, "6f1c2a34-0000-4000-8000-000000000001");
        ("watcher", Samples.nodeA, "6f1c2a34-0000-4000-8000-000000000001")]
  /\ @handleIncomingMessage samplePlatform (fst Samples.firstDelivery)
       (snd Samples.firstDelivery) Samples.peerA (Samples.clock + 20)
     = Samples.firstDelivery.
Proof.
  split; [vm_compute; discriminate|].
  split; [vm_compute; reflexivity|].
  split; [vm_compute; reflexivity|].
  apply (@duplicate_event_dropped samplePlatform _ _ _ _ (Samples.clock + 10)).
  vm_compute. reflexivity.
Qed.

(** C4, the code at the failing input.  The record [resonate] builds has
    strength 1 whatever its [strength] argument.  So
    [resonate("mining:coord", 0.4)] sends a record of strength 1: the
    receiver accepts it, the default matcher, which would turn 0.4 down,
    lets it through, and the extension is called. *)
Theorem weak_resonance_sent_at_full_strength :
  (forall (platform : Platform) w intent strength now uuid,
     Protocol.fields (@resonanceRecord platform w intent strength now uuid)
     = Protocol.ResonanceFields (Protocol.orString (Some intent) "default") 1)
  /\ Protocol.fields Samples.weakResonance
     = Protocol.ResonanceFields "mining:coord" 1
  /\ fst (fst Samples.weakResonanceSent) = 1
  /\ Samples.lastPayload (snd Samples.weakResonanceSent)
     = Some (Protocol.serializeMessage (snd (fst Samples.weakResonanceSent)))
  /\ Protocol.fields (snd (fst Samples.weakResonanceSent))
     = Protocol.ResonanceFields "mining:coord" 1
  /\ @Node.acceptMessage samplePlatform Samples.receiverNode
       (Protocol.serializeMessage (snd (fst Samples.weakResonanceSent)))
       Samples.nodeA (Samples.clock + 50)
     = Some (Protocol.toJS (snd (fst Samples.weakResonanceSent)), Samples.peerA)
  /\ checkResonance "mining:coord" (2 # 5) = false
  /\ checkResonance "mining:coord" 1 = true
  /\ List.map extension
       (handlerCalls
          (fst (@deliver samplePlatform Samples.orchestratorB
                  (snd (fst Samples.weakResonanceSent)) Samples.peerA
                  (Samples.clock + 50) Samples.pingNonce)))
     = ["watcher"; "watcher"].
Proof.
  split.
  - intros platform w intent strength now uuid.
    apply resonanceRecord_strength.
  - repeat split; vm_compute; reflexivity.
Qed.

End WhispurrFacts.

(** ** The peer table and its cap *)
Module PeerManagerFacts.
Import PeerManager.

Section Sorting.
Context {A : Type} (key : A -> Z).



End Sorting.
























(** The eviction at work: with room for two, the third peer pushes out the
    one seen first; its transport is closed before the record goes. *)
Example third_peer_evicts_first :
  List.map fst (peers Samples.twoKnown) = ["peer-1"; "peer-2"]
  /\ List.map fst (peers Samples.thirdAdded) = ["peer-2"; "peer-3"]
  /\ List.map
       (fun e => match e with
                 | TransportClose t _ _ => ("close", transportId t)
                 | PeerDisconnected peer _ => ("disconnected", O)
                 | PeerAdded peer => ("added", O)
                 | _ => ("other", O)
                 end)
       (List.skipn 2 (emitted Samples.thirdAdded))
     = [("close", 1%nat); ("disconnected", O); ("added", O)].
Proof. vm_compute. repeat split; reflexivity. Qed.

End PeerManagerFacts.
